(** * api-response: response envelopes and the global error handler

    A shallow embedding of the TypeScript sources

    - [meta.ts]       ([generateMeta]),
    - [appError.ts]   (class [AppError] and its named constructors),
    - [types.ts]      (the request, sink and envelope interfaces),
    - [error.ts]      ([error], [globalErrorHandler]),
    - [validation.ts] ([validationError]),
    - [paginate.ts]   ([paginated]),
    - [success.ts]    ([success]),

    followed by the properties of the envelopes they send.

    Conventions of the embedding.
    - An optional field or an optional argument ([requestId?: string],
      [statusCode: number = 500]) is an [option]: [None] is what JavaScript
      reads as [undefined].
    - JavaScript's truthiness, [||], [&&] and [===] are written out
      ([Truthy], [js_or], [or_default], [status_or]); the empty string and
      the numbers 0 and [NaN] are falsy although they are present.
    - The two ambient inputs of the code, the clock behind
      [new Date().toISOString()] and [process.env.NODE_ENV], are explicit
      arguments [now] and [NODE_ENV].
    - Status codes are integers; the [statusCode] read from a failure that
      is not an [AppError] may also be [NaN].
    - The pagination arithmetic is that of binary64 numbers: every finite
      value, the two zeros, the infinities and [NaN], with division rounded
      to nearest, ties to even. *)

From Stdlib Require Import ZArith QArith Qround Lia.
From stdpp Require Import gmap strings list fin_maps.

Local Open Scope Z_scope.

(** ** JavaScript values and truthiness *)

(** Values of TypeScript type [unknown] stored in a metadata record. *)
Inductive jsval : Type :=
  | JUndefined
  | JNull
  | JBool (b : bool)
  | JNum (n : Z)
  | JStr (s : string).

Global Instance jsval_eq_dec : EqDecision jsval.
Proof. solve_decision. Defined.

(** [ToBoolean] on the types the code tests. *)
Class Truthy (A : Type) := truthy : A → bool.

Global Instance string_truthy : Truthy string :=
  λ s, negb (String.eqb s "").
Global Instance Z_truthy : Truthy Z :=
  λ n, negb (n =? 0)%Z.
Global Instance option_truthy {A} `{Truthy A} : Truthy (option A) :=
  λ o, match o with Some a => truthy a | None => false end.

(** [a || b] where both sides may be [undefined] or [null]. *)
Definition js_or {A} `{Truthy A} (a b : option A) : option A :=
  if truthy a then a else b.

(** [a || d] where [d] is a literal of the field's type. *)
Definition or_default {A} `{Truthy A} (a : option A) (d : A) : A :=
  match a with
  | Some x => if truthy x then x else d
  | None => d
  end.

(** ** meta.ts *)

(** A metadata record ([ResponseMeta], [Record<string, unknown>]). *)
Abbreviation Meta := (gmap string jsval).

(** Object spread [{...base, ...extra}]: the entries of [extra] are
    written one after the other onto [base]. *)
Definition spread (base extra : Meta) : Meta :=
  map_fold (λ k v acc, <[k:=v]> acc) base extra.

(** [generateMeta(additionalMeta = {})]:
    [{ timestamp: new Date().toISOString(), ...additionalMeta }]. *)
Definition generateMeta (now : string) (additionalMeta : option Meta) : Meta :=
  let additionalMeta := default ∅ additionalMeta in
  spread {["timestamp" := JStr now]} additionalMeta.

(** ** appError.ts *)

Module AppError.

Record t : Type := mk {
  name : string;
  message : string;
  statusCode : Z;
  code : string;
  isOperational : bool;
  stack : option string;
}.

(** [new AppError(message, statusCode = 500, code = 'INTERNAL_ERROR')];
    [trace] is what [Error.captureStackTrace] records. *)
Definition new (trace : string) (message : string)
    (statusCode : option Z) (code : option string) : t :=
  let statusCode := default 500 statusCode in
  let code := default "INTERNAL_ERROR" code in
  {| name := "AppError";
     message := message;
     statusCode := statusCode;
     code := code;
     isOperational := true;
     stack := Some trace |}.

Definition badRequest (trace message : string) (code : option string) : t :=
  new trace message (Some 400) (Some (default "BAD_REQUEST" code)).

Definition unauthorized (trace : string) (message code : option string) : t :=
  new trace (default "Unauthorized" message) (Some 401)
      (Some (default "UNAUTHORIZED" code)).

Definition forbidden (trace : string) (message code : option string) : t :=
  new trace (default "Forbidden" message) (Some 403)
      (Some (default "FORBIDDEN" code)).

Definition notFound (trace : string) (message code : option string) : t :=
  new trace (default "Resource not found" message) (Some 404)
      (Some (default "NOT_FOUND" code)).

Definition conflict (trace message : string) (code : option string) : t :=
  new trace message (Some 409) (Some (default "CONFLICT" code)).

Definition internal (trace : string) (message code : option string) : t :=
  new trace (default "Internal server error" message) (Some 500)
      (Some (default "INTERNAL_ERROR" code)).

End AppError.

(** The number found in the [statusCode] field of a failure that is not an
    [AppError]: an integer, or [NaN]. *)
Inductive StatusValue : Type :=
  | StatusInt (n : Z)
  | StatusNaN.

(** [a || d] for a number [a] that may be missing and an integer literal
    [d].  The falsy numbers are [0] and [NaN], so the outcome is always an
    integer. *)
Definition status_or (a : option StatusValue) (d : Z) : Z :=
  match a with
  | Some (StatusInt n) => if truthy n then n else d
  | Some StatusNaN => d
  | None => d
  end.

(** A thrown [Error] that is not an [AppError], as far as the handler reads
    it: [err.message], [(err as AppError).statusCode] and [err.stack]. *)
Module PlainError.

Record t : Type := mk {
  message : option string;
  statusCode : option StatusValue;
  stack : option string;
}.

End PlainError.

(** The [err: Error] argument of the handler together with the outcome of
    [err instanceof AppError]. *)
Inductive Thrown : Type :=
  | IsAppError (err : AppError.t)
  | NotAppError (err : PlainError.t).

(** ** types.ts *)

(** [string | string[]] header values; an absent entry is a failed lookup. *)
Inductive HeaderValue : Type :=
  | HString (s : string)
  | HArray (l : list string).

(** [typeof v === 'string' ? v : null] on a header lookup. *)
Definition string_or_null (v : option HeaderValue) : option string :=
  match v with
  | Some (HString s) => Some s
  | _ => None
  end.

Record ApiRequest : Type := mkApiRequest {
  requestId : option string;
  headers : gmap string HeaderValue;
}.

Record ValidationErrorItem : Type := mkValidationErrorItem {
  field : string;
  item_message : string;
  item_extra : Meta;
}.

(** The [errors] payload of a generic error envelope. *)
Inductive ErrorDetails : Type :=
  | ErrorItems (items : list ValidationErrorItem)
  | ErrorRecord (entries : Meta).

Module ErrorResponse.

(** [errors], [code] and [stack] are optional keys: [None] is an omitted
    key. *)
Record t : Type := mk {
  success : bool;
  statusCode : Z;
  message : string;
  errors : option ErrorDetails;
  code : option string;
  stack : option string;
  meta : Meta;
}.

End ErrorResponse.

Module ValidationErrorResponse.

Record t : Type := mk {
  success : bool;
  statusCode : Z;
  message : string;
  errors : list ValidationErrorItem;
  meta : Meta;
}.

End ValidationErrorResponse.

(** The response sink: [status(code): this] and [json(body): this]. *)
Class ApiResponse (R B : Type) := {
  status : Z → R → R;
  json : B → R → R;
}.

(** A sink that records the calls made on it, oldest first. *)
Inductive SinkCall (B : Type) : Type :=
  | CallStatus (code : Z)
  | CallJson (body : B).
Arguments CallStatus {B} code.
Arguments CallJson {B} body.

Global Instance trace_sink {B} : ApiResponse (list (SinkCall B)) B := {|
  status code res := res ++ [CallStatus code];
  json body res := res ++ [CallJson body];
|}.

(** ** error.ts *)

(** [error(res, message = 'An error occurred', statusCode = 500,
           errors = null, meta = {})]. *)
Definition error {R} `{ApiResponse R ErrorResponse.t} (now : string) (res : R)
    (message : option string) (statusCode : option Z)
    (errors : option ErrorDetails) (meta : option Meta) : R :=
  let message := default "An error occurred" message in
  let statusCode := default 500 statusCode in
  let meta := default ∅ meta in
  let response :=
    {| ErrorResponse.success := false;
       ErrorResponse.statusCode := statusCode;
       ErrorResponse.message := message;
       ErrorResponse.errors := None;
       ErrorResponse.code := None;
       ErrorResponse.stack := None;
       ErrorResponse.meta := generateMeta now (Some meta) |} in
  let response :=
    match errors with
    | Some e =>
        {| ErrorResponse.success := ErrorResponse.success response;
           ErrorResponse.statusCode := ErrorResponse.statusCode response;
           ErrorResponse.message := ErrorResponse.message response;
           ErrorResponse.errors := Some e;
           ErrorResponse.code := ErrorResponse.code response;
           ErrorResponse.stack := ErrorResponse.stack response;
           ErrorResponse.meta := ErrorResponse.meta response |}
    | None => response
    end in
  json response (status statusCode res).

(** The middleware returned by [globalErrorHandler()].  [_next] is never
    called by the source and has no counterpart here. *)
Definition globalErrorHandler {R} `{ApiResponse R ErrorResponse.t}
    (NODE_ENV : option string) (now : string)
    (err : Thrown) (req : ApiRequest) (res : R) : R :=
  (* req.requestId || (typeof req.headers['x-request-id'] === 'string'
                         ? req.headers['x-request-id'] : null) *)
  let requestId :=
    js_or (requestId req) (string_or_null (headers req !! "x-request-id")) in
  (* requestId ? { requestId } : {} *)
  let meta : Meta :=
    match requestId with
    | Some id => if truthy id then {["requestId" := JStr id]} else ∅
    | None => ∅
    end in
  match err with
  | IsAppError err =>
      let response :=
        {| ErrorResponse.success := false;
           ErrorResponse.statusCode := AppError.statusCode err;
           ErrorResponse.message := AppError.message err;
           ErrorResponse.errors := None;
           ErrorResponse.code := Some (AppError.code err);
           ErrorResponse.stack := None;
           ErrorResponse.meta := generateMeta now (Some meta) |} in
      json response (status (AppError.statusCode err) res)
  | NotAppError err =>
      let isProduction := bool_decide (NODE_ENV = Some "production") in
      let statusCode := status_or (PlainError.statusCode err) 500 in
      let message :=
        if isProduction && (statusCode =? 500)%Z
        then "Internal server error"
        else or_default (PlainError.message err) "An unexpected error occurred" in
      let response :=
        {| ErrorResponse.success := false;
           ErrorResponse.statusCode := statusCode;
           ErrorResponse.message := message;
           ErrorResponse.errors := None;
           ErrorResponse.code := Some "INTERNAL_ERROR";
           ErrorResponse.stack := None;
           ErrorResponse.meta := generateMeta now (Some meta) |} in
      let response :=
        if negb isProduction && truthy (PlainError.stack err)
        then
          {| ErrorResponse.success := ErrorResponse.success response;
             ErrorResponse.statusCode := ErrorResponse.statusCode response;
             ErrorResponse.message := ErrorResponse.message response;
             ErrorResponse.errors := ErrorResponse.errors response;
             ErrorResponse.code := ErrorResponse.code response;
             ErrorResponse.stack := PlainError.stack err;
             ErrorResponse.meta := ErrorResponse.meta response |}
        else response in
      json response (status statusCode res)
  end.

(** ** validation.ts *)

Definition validationError {R} `{ApiResponse R ValidationErrorResponse.t}
    (now : string) (res : R) (errors : list ValidationErrorItem) : R :=
  let response :=
    {| ValidationErrorResponse.success := false;
       ValidationErrorResponse.statusCode := 422;
       ValidationErrorResponse.message := "Validation failed";
       ValidationErrorResponse.errors := errors;
       ValidationErrorResponse.meta := generateMeta now None |} in
  json response (status 422 res).

(** ** JavaScript numbers for the pagination arithmetic *)

(** A binary64 [number] by its value: a finite value (a rational; the value 0
    is the positive zero), the negative zero, the infinities and [NaN]. *)
Inductive number : Type :=
  | Finite (q : Q)
  | NegZero
  | Infinity
  | NegInfinity
  | NaN.

Definition of_Z (n : Z) : number := Finite (inject_Z n).

Definition is_NaN (x : number) : bool :=
  match x with NaN => true | _ => false end.

Definition is_infinite (x : number) : bool :=
  match x with Infinity | NegInfinity => true | _ => false end.

Definition is_zero (x : number) : bool :=
  match x with Finite q => (Qnum q =? 0) | NegZero => true | _ => false end.

(** The sign bit. *)
Definition is_negative (x : number) : bool :=
  match x with
  | Finite q => (Qnum q <? 0)
  | NegZero | NegInfinity => true
  | _ => false
  end.

Definition signed_zero (negative : bool) : number :=
  if negative then NegZero else of_Z 0.

Definition signed_infinity (negative : bool) : number :=
  if negative then NegInfinity else Infinity.

Definition number_neg (x : number) : number :=
  match x with
  | Finite q => if (Qnum q =? 0) then NegZero else Finite (- q)
  | NegZero => of_Z 0
  | Infinity => NegInfinity
  | NegInfinity => Infinity
  | NaN => NaN
  end.

(** The integer nearest to [p / d], ties to the even one ([0 <= p], [0 < d]). *)
Definition round_half_even (p d : Z) : Z :=
  let f := p / d in
  let r := p mod d in
  if (2 * r <? d) then f
  else if (d <? 2 * r) then f + 1
  else if Z.even f then f else f + 1.

(** [floor (log2 (a / b))] for positive [a] and [b]. *)
Definition floor_log2_ratio (a b : Z) : Z :=
  let l := Z.log2 a - Z.log2 b in
  if (a * 2 ^ Z.max 0 (- l) <? b * 2 ^ Z.max 0 l) then l - 1 else l.

(** The binary64 nearest to [a / b] for positive integers [a] and [b],
    rounding to nearest with ties to even: a significand [m] of at most 53
    bits at the exponent [e] of the quotient, not below the subnormal
    exponent -1074, and [Infinity] from [2 ^ 1024] on. *)
Definition binary64_quotient (a b : Z) : number :=
  let e := Z.max (floor_log2_ratio a b - 52) (-1074) in
  let m := round_half_even (a * 2 ^ Z.max 0 (- e)) (b * 2 ^ Z.max 0 e) in
  if (2 ^ 1024 <=? m * 2 ^ Z.max 0 e) then Infinity
  else Finite (Qmake (m * 2 ^ Z.max 0 e) (Z.to_pos (2 ^ Z.max 0 (- e)))).

(** [x / y]. *)
Definition number_div (x y : number) : number :=
  let negative := xorb (is_negative x) (is_negative y) in
  if is_NaN x || is_NaN y then NaN
  else if is_infinite x then
    if is_infinite y then NaN else signed_infinity negative
  else if is_infinite y then signed_zero negative
  else if is_zero y then
    if is_zero x then NaN else signed_infinity negative
  else if is_zero x then signed_zero negative
  else
    match x, y with
    | Finite p, Finite q =>
        let r := binary64_quotient (Z.abs (Qnum p) * Z.pos (Qden q))
                                   (Z.pos (Qden p) * Z.abs (Qnum q)) in
        if negative then number_neg r else r
    | _, _ => NaN
    end.

(** [Math.ceil]; a value strictly between -1 and 0 gives the negative
    zero. *)
Definition Math_ceil (x : number) : number :=
  match x with
  | Finite q =>
      if (Qnum q <? 0) && negb (Qle_bool q (inject_Z (-1))) then NegZero
      else of_Z (Qceiling q)
  | _ => x
  end.

Definition finite_value (x : number) : option Q :=
  match x with
  | Finite q => Some q
  | NegZero => Some (inject_Z 0)
  | _ => None
  end.

(** [a < b]; every comparison with [NaN] is false, and the two zeros are
    equal. *)
Definition number_lt (a b : number) : bool :=
  match a, b with
  | NaN, _ | _, NaN => false
  | _, NegInfinity | Infinity, _ => false
  | NegInfinity, _ | _, Infinity => true
  | _, _ =>
      match finite_value a, finite_value b with
      | Some p, Some q => negb (Qle_bool q p)
      | _, _ => false
      end
  end.

(** [a > b]. *)
Definition number_gt (a b : number) : bool := number_lt b a.

(** ** paginate.ts *)

Record PaginationInput : Type := mkPaginationInput {
  page : number;
  limit : number;
  total : number;
}.

Module PaginationOutput.

Record t : Type := mk {
  page : number;
  limit : number;
  total : number;
  totalPages : number;
  hasNextPage : bool;
  hasPrevPage : bool;
}.

End PaginationOutput.

Module PaginatedResponse.

Record t (T : Type) : Type := mk {
  success : bool;
  statusCode : Z;
  message : string;
  data : list T;
  pagination : PaginationOutput.t;
  meta : Meta;
}.
Arguments mk {T}.
Arguments success {T}.
Arguments statusCode {T}.
Arguments message {T}.
Arguments data {T}.
Arguments pagination {T}.
Arguments meta {T}.

End PaginatedResponse.

(** [paginated(res, data, pagination, message = 'Success')]. *)
Definition paginated {T R} `{ApiResponse R (PaginatedResponse.t T)}
    (now : string) (res : R) (data : list T) (pagination : PaginationInput)
    (message : option string) : R :=
  let message := default "Success" message in
  let '(mkPaginationInput page limit total) := pagination in
  let totalPages := Math_ceil (number_div total limit) in
  let paginationOutput :=
    {| PaginationOutput.page := page;
       PaginationOutput.limit := limit;
       PaginationOutput.total := total;
       PaginationOutput.totalPages := totalPages;
       PaginationOutput.hasNextPage := number_lt page totalPages;
       PaginationOutput.hasPrevPage := number_gt page (of_Z 1) |} in
  let response :=
    {| PaginatedResponse.success := true;
       PaginatedResponse.statusCode := 200;
       PaginatedResponse.message := message;
       PaginatedResponse.data := data;
       PaginatedResponse.pagination := paginationOutput;
       PaginatedResponse.meta := generateMeta now None |} in
  json response (status 200 res).

(** ** success.ts *)

Module SuccessResponse.

Record t (T : Type) : Type := mk {
  success : bool;
  statusCode : Z;
  message : string;
  data : T;
  meta : Meta;
}.
Arguments mk {T}.

End SuccessResponse.

(** [success(res, data, message = 'Success', statusCode = 200, meta = {})]. *)
Definition success {T R} `{ApiResponse R (SuccessResponse.t T)}
    (now : string) (res : R) (data : T) (message : option string)
    (statusCode : option Z) (meta : option Meta) : R :=
  let message := default "Success" message in
  let statusCode := default 200 statusCode in
  let meta := default ∅ meta in
  let response :=
    {| SuccessResponse.success := true;
       SuccessResponse.statusCode := statusCode;
       SuccessResponse.message := message;
       SuccessResponse.data := data;
       SuccessResponse.meta := generateMeta now (Some meta) |} in
  json response (status statusCode res).

(** ** tests/mocks.ts *)

(** The mock sink of the test suite: it remembers the last status and the
    last body. *)
Module MockResponse.

Record t (B : Type) : Type := mk {
  _status : Z;
  _json : option B;
}.
Arguments mk {B}.
Arguments _status {B}.
Arguments _json {B}.

End MockResponse.

Definition createMockResponse {B} : MockResponse.t B :=
  {| MockResponse._status := 0; MockResponse._json := None |}.

Global Instance mock_sink {B} : ApiResponse (MockResponse.t B) B := {|
  status code res :=
    {| MockResponse._status := code;
       MockResponse._json := MockResponse._json res |};
  json body res :=
    {| MockResponse._status := MockResponse._status res;
       MockResponse._json := Some body |};
|}.

Definition getResponseData {B} (res : MockResponse.t B) : Z * option B :=
  (MockResponse._status res, MockResponse._json res).

(** ** Notions used in the statements *)

(** The status the handler derives for a failure that is not an [AppError]:
    [(err as AppError).statusCode || 500]. *)
Definition effectiveStatus (err : PlainError.t) : Z :=
  status_or (PlainError.statusCode err) 500.

(** The correlation id the handler puts into [meta], if any:
    the outcome of [requestId ? { requestId } : {}]. *)
Definition attachedId (req : ApiRequest) : option string :=
  match js_or (requestId req) (string_or_null (headers req !! "x-request-id")) with
  | Some id => if truthy id then Some id else None
  | None => None
  end.

(** The metadata extension built from the request. *)
Definition correlationMeta (req : ApiRequest) : Meta :=
  match attachedId req with
  | Some id => {["requestId" := JStr id]}
  | None => ∅
  end.

(** The one envelope sent in production for every unknown failure of
    effective status 500. *)
Definition redactedEnvelope (now : string) (req : ApiRequest)
  : ErrorResponse.t :=
  {| ErrorResponse.success := false;
     ErrorResponse.statusCode := 500;
     ErrorResponse.message := "Internal server error";
     ErrorResponse.errors := None;
     ErrorResponse.code := Some "INTERNAL_ERROR";
     ErrorResponse.stack := None;
     ErrorResponse.meta := generateMeta now (Some (correlationMeta req)) |}.

(** The last status set and the last body sent on a recording sink. *)
Definition sentStatus {B} (calls : list (SinkCall B)) : option Z :=
  last (omap (λ c, match c with CallStatus code => Some code | _ => None end)
             calls).

Definition sentBody {B} (calls : list (SinkCall B)) : option B :=
  last (omap (λ c, match c with CallJson body => Some body | _ => None end)
             calls).

(** The sink received [status] and an envelope with that status, [code]
    and [message]. *)
Definition respondsWith (calls : list (SinkCall ErrorResponse.t))
    (status : Z) (code message : string) : Prop :=
  sentStatus calls = Some status ∧
  ∃ body,
    sentBody calls = Some body ∧
    ErrorResponse.statusCode body = status ∧
    ErrorResponse.code body = Some code ∧
    ErrorResponse.message body = message.

(** * Properties *)

(** ** Object spread and the metadata generator *)

Lemma spread_union (base extra : Meta) : spread base extra = extra ∪ base.
Proof.
  unfold spread.
  induction extra as [|k v extra Hk Hfold IH] using map_first_key_ind.
  - by rewrite map_fold_empty, (left_id_L ∅ (∪)).
  - rewrite map_fold_insert_first_key by done.
    by rewrite IH, insert_union_l.
Qed.

Lemma lookup_spread (base extra : Meta) (k : string) :
  spread base extra !! k =
  match extra !! k with Some v => Some v | None => base !! k end.
Proof.
  rewrite spread_union, lookup_union.
  destruct (extra !! k), (base !! k); reflexivity.
Qed.

Lemma lookup_generateMeta (now : string) (extra : option Meta) (k : string) :
  generateMeta now extra !! k =
  match default ∅ extra !! k with
  | Some v => Some v
  | None => if decide (k = "timestamp") then Some (JStr now) else None
  end.
Proof.
  unfold generateMeta. cbv zeta. rewrite lookup_spread.
  destruct (default ∅ extra !! k); [done|].
  case_decide as Hk.
  - subst k. apply lookup_singleton_eq.
  - by apply lookup_singleton_ne.
Qed.

Lemma dom_generateMeta (now : string) (extra : option Meta) :
  dom (generateMeta now extra) = {["timestamp"]} ∪ dom (default ∅ extra).
Proof.
  unfold generateMeta. cbv zeta.
  rewrite spread_union, dom_union_L, dom_singleton_L.
  apply (comm_L (∪)).
Qed.

(** C8. Whatever extra metadata is supplied (none at all included),
    [generateMeta] yields a record that has a [timestamp] key and holds every
    entry of the extra mapping, and nothing beyond those keys.  The extra
    entries are written after the generated timestamp: a supplied
    [timestamp] entry replaces the generated one, and without such an entry
    the timestamp is the clock value. *)
Theorem generateMeta_overlay (now : string) (extra : option Meta) :
  let result := generateMeta now extra in
  let supplied := default ∅ extra in
  is_Some (result !! "timestamp") ∧
  (∀ k v, supplied !! k = Some v → result !! k = Some v) ∧
  (∀ v, supplied !! "timestamp" = Some v → result !! "timestamp" = Some v) ∧
  (supplied !! "timestamp" = None → result !! "timestamp" = Some (JStr now)) ∧
  dom result = {["timestamp"]} ∪ dom supplied.
Proof.
  cbv zeta. repeat split.
  - rewrite lookup_generateMeta.
    destruct (default ∅ extra !! "timestamp"); [by eexists|].
    rewrite decide_True by done. by eexists.
  - intros k v Hk. by rewrite lookup_generateMeta, Hk.
  - intros v Hk. by rewrite lookup_generateMeta, Hk.
  - intros Hk. rewrite lookup_generateMeta, Hk. by rewrite decide_True.
  - apply dom_generateMeta.
Qed.

(** A caller-supplied timestamp wins; a record without one gets the clock. *)
Lemma generateMeta_overlay_witness :
  generateMeta "2024-05-01T10:00:00.000Z"
    (Some {["timestamp" := JStr "2020-01-01T00:00:00.000Z"]}) !! "timestamp"
    = Some (JStr "2020-01-01T00:00:00.000Z") ∧
  generateMeta "2024-05-01T10:00:00.000Z"
    (Some {["version" := JStr "v1"]}) !! "timestamp"
    = Some (JStr "2024-05-01T10:00:00.000Z").
Proof.
  split.
  - apply (generateMeta_overlay "2024-05-01T10:00:00.000Z"
             (Some {["timestamp" := JStr "2020-01-01T00:00:00.000Z"]})).
    vm_compute. reflexivity.
  - apply (generateMeta_overlay "2024-05-01T10:00:00.000Z"
             (Some {["version" := JStr "v1"]})).
    vm_compute. reflexivity.
Defined.

(** ** The builders *)

(** On the recording sink a builder appends exactly two calls. *)
Lemma trace_status_json {B} (res : list (SinkCall B)) (code : Z) (body : B) :
  json body (status code res) = res ++ [CallStatus code; CallJson body].
Proof. cbn. by rewrite <- (assoc_L (++)). Qed.

(** C7. For every list of validation items, the empty one included,
    [validationError] first sets the status 422 and then sends an envelope
    with [success = false], [statusCode = 422],
    [message = "Validation failed"] and the given items as [errors]; the
    envelope is the same whatever the sink held before. *)
Theorem validationError_envelope (now : string)
    (res : list (SinkCall ValidationErrorResponse.t))
    (errors : list ValidationErrorItem) :
  ∃ body,
    validationError now res errors = res ++ [CallStatus 422; CallJson body] ∧
    validationError now [] errors = [CallStatus 422; CallJson body] ∧
    ValidationErrorResponse.success body = false ∧
    ValidationErrorResponse.statusCode body = 422 ∧
    ValidationErrorResponse.message body = "Validation failed" ∧
    ValidationErrorResponse.errors body = errors ∧
    ValidationErrorResponse.meta body = {["timestamp" := JStr now]}.
Proof.
  eexists. split; [apply trace_status_json|].
  split; [apply (trace_status_json [])|].
  repeat split.
Qed.

(** ** Pagination arithmetic *)

Lemma round_half_even_bounds (p d : Z) :
  0 < d →
  p / d ≤ round_half_even p d ≤ p / d + 1 ∧
  (p mod d = 0 → round_half_even p d = p / d) ∧
  (2 * (p mod d) < d → round_half_even p d = p / d) ∧
  (d < 2 * (p mod d) → round_half_even p d = p / d + 1).
Proof.
  intros Hd. unfold round_half_even. cbv zeta.
  pose proof (Z.mod_pos_bound p d Hd) as Hr.
  destruct (Z.ltb_spec (2 * (p mod d)) d) as [H1|H1];
    [|destruct (Z.ltb_spec d (2 * (p mod d))) as [H2|H2];
      [|destruct (Z.even (p / d))]]; repeat split; lia.
Qed.

(** Rounding [p / d] to an integer keeps its order with every integer [N],
    strictly so when the distance exceeds one half. *)
Lemma round_half_even_order (p d N : Z) :
  0 < d →
  (N * d ≤ p → N ≤ round_half_even p d) ∧
  (p ≤ N * d → round_half_even p d ≤ N) ∧
  (d < 2 * (p - N * d) → N < round_half_even p d) ∧
  (d < 2 * (N * d - p) → round_half_even p d < N).
Proof.
  intros Hd.
  destruct (round_half_even_bounds p d Hd) as (Hb & H0 & Hlo & Hhi).
  pose proof (Z.div_mod p d ltac:(lia)) as Hdiv.
  pose proof (Z.mod_pos_bound p d Hd) as Hr.
  set (f := p / d) in *. set (r := p mod d) in *.
  set (m := round_half_even p d) in *.
  repeat split.
  - intros H. assert (N ≤ f) by nia. lia.
  - intros H. destruct (Z.eq_dec r 0) as [Hr0|Hr0].
    + rewrite (H0 Hr0). nia.
    + assert (f < N) by nia. lia.
  - intros H. destruct (Z_lt_le_dec f N) as [Hf|Hf].
    + assert (f = N - 1 ∨ f < N - 1) as [->|Hlt] by lia.
      * assert (d < 2 * r) by nia. rewrite Hhi by assumption. lia.
      * nia.
    + destruct (Z.eq_dec f N) as [->|Hne].
      * assert (d < 2 * r) by nia. rewrite Hhi by assumption. lia.
      * lia.
  - intros H. destruct (Z_lt_le_dec f (N - 1)) as [Hf|Hf].
    + lia.
    + assert (f = N - 1) as Hf1 by nia.
      assert (2 * r < d) by nia. rewrite Hlo by assumption. lia.
Qed.

Lemma floor_log2_ratio_lower (a b : Z) :
  0 < a → 0 < b →
  Z.log2 a - Z.log2 b - 1 ≤ floor_log2_ratio a b ≤ Z.log2 a - Z.log2 b ∧
  (0 ≤ floor_log2_ratio a b → b * 2 ^ floor_log2_ratio a b ≤ a).
Proof.
  intros Ha Hb. unfold floor_log2_ratio. cbv zeta.
  destruct (Z.log2_spec a Ha) as [Ha1 Ha2].
  destruct (Z.log2_spec b Hb) as [Hb1 Hb2].
  pose proof (Z.log2_nonneg a). pose proof (Z.log2_nonneg b).
  set (la := Z.log2 a) in *. set (lb := Z.log2 b) in *.
  destruct (Z.ltb_spec (a * 2 ^ Z.max 0 (- (la - lb)))
                       (b * 2 ^ Z.max 0 (la - lb))) as [Hlt|Hge].
  - split; [lia|]. intros Hl.
    assert (Hpow : 2 ^ la = 2 ^ (lb + 1) * 2 ^ (la - lb - 1)).
    { rewrite <- Z.pow_add_r by lia. f_equal. lia. }
    assert (0 < 2 ^ (la - lb - 1)) by (apply Z.pow_pos_nonneg; lia).
    nia.
  - split; [lia|]. intros Hl.
    rewrite (Z.max_l 0 (- (la - lb))) in Hge by lia.
    rewrite (Z.max_r 0 (la - lb)) in Hge by lia.
    rewrite Z.pow_0_r in Hge. lia.
Qed.

(** Below [2 ^ 53] the rounded quotient of two positive integers is
    [m / 2 ^ E] for a significand [m] that compares with [n * 2 ^ E] as
    [a] compares with [n * b], for every integer [n]: the rounding never
    crosses an integer and never reaches one it did not start from. *)
Lemma binary64_quotient_safe (a b : Z) :
  0 < a < 2 ^ 53 → 0 < b < 2 ^ 53 →
  ∃ m E,
    0 ≤ E ∧
    binary64_quotient a b = Finite (Qmake m (Z.to_pos (2 ^ E))) ∧
    ∀ n, (n * b < a → n * 2 ^ E < m) ∧
         (a < n * b → m < n * 2 ^ E) ∧
         (a = n * b → m = n * 2 ^ E).
Proof.
  intros [Ha Ha53] [Hb Hb53].
  destruct (floor_log2_ratio_lower a b Ha Hb) as [[Hl1 Hl2] Hlow].
  assert (Hla : Z.log2 a < 53) by (apply Z.log2_lt_pow2; lia).
  assert (Hlb : Z.log2 b < 53) by (apply Z.log2_lt_pow2; lia).
  pose proof (Z.log2_nonneg a). pose proof (Z.log2_nonneg b).
  unfold binary64_quotient. cbv zeta.
  set (l := floor_log2_ratio a b) in *.
  assert (He : Z.max (l - 52) (-1074) = l - 52) by lia.
  rewrite He.
  rewrite (Z.max_l 0 (l - 52)) by lia.
  rewrite (Z.max_r 0 (- (l - 52))) by lia.
  rewrite Z.pow_0_r, !Z.mul_1_r.
  set (E := - (l - 52)) in *.
  assert (HE : 0 ≤ E ≤ 105) by lia.
  assert (HpE : 0 < 2 ^ E) by (apply Z.pow_pos_nonneg; lia).
  set (m := round_half_even (a * 2 ^ E) b).
  assert (HbE : b < 2 * 2 ^ E).
  { destruct (Z_lt_le_dec E 52) as [Hsmall|Hbig].
    - assert (Hl : 0 ≤ l) by lia. specialize (Hlow Hl).
      assert (Hpow : 2 ^ 53 = 2 ^ l * (2 * 2 ^ E)).
      { replace (2 * 2 ^ E) with (2 ^ (E + 1))
          by (rewrite Z.pow_add_r by lia; lia).
        rewrite <- Z.pow_add_r by lia. f_equal. lia. }
      assert (0 < 2 ^ l) by (apply Z.pow_pos_nonneg; lia).
      nia.
    - assert (2 ^ 52 ≤ 2 ^ E) by (apply Z.pow_le_mono_r; lia).
      assert (2 ^ 53 = 2 * 2 ^ 52) by reflexivity. lia. }
  assert (Horder : ∀ n, (n * b < a → n * 2 ^ E < m) ∧
                        (a < n * b → m < n * 2 ^ E) ∧
                        (a = n * b → m = n * 2 ^ E)).
  { intros n.
    destruct (round_half_even_order (a * 2 ^ E) b (n * 2 ^ E) Hb)
      as (Hge & Hle & Hgt & Hlt).
    fold m in Hge, Hle, Hgt, Hlt.
    split; [|split].
    - intros Hn. apply Hgt. nia.
    - intros Hn. apply Hlt. nia.
    - intros Hn. assert (n * 2 ^ E ≤ m) by (apply Hge; nia).
      assert (m ≤ n * 2 ^ E) by (apply Hle; nia). lia. }
  exists m, E. split; [lia|]. split; [|exact Horder].
  destruct (Horder a) as (_ & Hup & Heq).
  assert (Hm : m ≤ a * 2 ^ E).
  { destruct (Z.eq_dec b 1) as [->|Hb1]; [rewrite (Heq ltac:(lia)); lia|].
    assert (m < a * 2 ^ E) by (apply Hup; nia). lia. }
  assert (Hbound : a * 2 ^ E < 2 ^ 1024).
  { assert (2 ^ E ≤ 2 ^ 105) by (apply Z.pow_le_mono_r; lia).
    assert (2 ^ 1024 = 2 ^ 53 * 2 ^ 105 * 2 ^ 866) by reflexivity.
    assert (0 < 2 ^ 866) by (apply Z.pow_pos_nonneg; lia).
    nia. }
  destruct (Z.leb_spec (2 ^ 1024) m); [lia|reflexivity].
Qed.

Lemma number_div_positive (a b : Z) :
  0 < a → 0 < b → number_div (of_Z a) (of_Z b) = binary64_quotient a b.
Proof.
  intros Ha Hb. destruct a as [|a|a], b as [|b|b]; try lia.
  unfold number_div, of_Z, inject_Z.
  cbn -[binary64_quotient Z.mul].
  by rewrite Z.mul_1_r, Z.mul_1_l.
Qed.

Lemma number_lt_of_Z (a b : Z) :
  number_lt (of_Z a) (of_Z b) = bool_decide (a < b).
Proof.
  unfold number_lt, of_Z, Qle_bool, inject_Z. simpl.
  rewrite !Z.mul_1_r.
  destruct (Z.leb_spec b a); simpl; symmetry;
    [apply bool_decide_eq_false | apply bool_decide_eq_true]; lia.
Qed.

Lemma Qceiling_dyadic (m E : Z) :
  0 ≤ E →
  (Qceiling (Qmake m (Z.to_pos (2 ^ E))) - 1) * 2 ^ E < m
  ≤ Qceiling (Qmake m (Z.to_pos (2 ^ E))) * 2 ^ E.
Proof.
  intros HE.
  assert (HpE : 0 < 2 ^ E) by (apply Z.pow_pos_nonneg; lia).
  unfold Qceiling, Qfloor, Qopp. cbn [Qnum Qden].
  rewrite Z2Pos.id by assumption.
  pose proof (Z.div_mod (- m) (2 ^ E) ltac:(lia)).
  pose proof (Z.mod_pos_bound (- m) (2 ^ E) HpE).
  nia.
Qed.

(** The page count that [paginated] computes from integers below
    [2 ^ 53]. *)
Lemma totalPages_safe (total limit : Z) :
  0 ≤ total < 2 ^ 53 → 0 < limit < 2 ^ 53 →
  ∃ n,
    Math_ceil (number_div (of_Z total) (of_Z limit)) = of_Z n ∧
    (n - 1) * limit < total ≤ n * limit.
Proof.
  intros [Htotal Htotal53] Hlimit.
  destruct (Z.eq_dec total 0) as [->|Hpos].
  - exists 0. split; [|lia].
    destruct limit as [|l|l]; try lia. reflexivity.
  - rewrite number_div_positive by lia.
    destruct (binary64_quotient_safe total limit ltac:(lia) Hlimit)
      as (m & E & HE & -> & Horder).
    assert (HpE : 0 < 2 ^ E) by (apply Z.pow_pos_nonneg; lia).
    assert (Hm : 0 < m) by (destruct (Horder 0) as (H0 & _); lia).
    pose proof (Qceiling_dyadic m E HE) as Hc.
    set (c := Qceiling (Qmake m (Z.to_pos (2 ^ E)))) in *.
    exists c. split.
    + unfold Math_ceil. cbn [Qnum].
      destruct (Z.ltb_spec m 0); [lia|]. reflexivity.
    + destruct (Horder (c - 1)) as (_ & Hlt1 & Heq1).
      destruct (Horder c) as (Hgt & _ & _).
      split.
      * destruct (Z_lt_le_dec ((c - 1) * limit) total) as [|Hle];
          [assumption|].
        destruct (Z.eq_dec total ((c - 1) * limit)) as [Heq|Hne].
        -- specialize (Heq1 Heq). lia.
        -- assert (m < (c - 1) * 2 ^ E) by (apply Hlt1; lia). lia.
      * destruct (Z_lt_le_dec (c * limit) total) as [Hlt|]; [|lia].
        specialize (Hgt Hlt). lia.
Qed.

(** The division rounds: beyond [2 ^ 53] the page count can fall short of
    the ceiling.  For [2 ^ 60] items, three per page, the pages reported
    hold fewer than [2 ^ 60] items; and with 13510798882111492 items, three
    per page, page [2 ^ 52 + 1] is reported as the last one although one
    more page is needed. *)
Lemma paginated_unsafe_total_counterexample :
  (∃ body,
     paginated (T := nat) "2024-05-01T10:00:00.000Z" [] []
       (mkPaginationInput (of_Z 1) (of_Z 3) (of_Z (2 ^ 60))) None
     = [CallStatus 200; CallJson body] ∧
     PaginationOutput.totalPages (PaginatedResponse.pagination body)
       = of_Z 384307168202282304 ∧
     384307168202282304 * 3 < 2 ^ 60) ∧
  (∃ body,
     paginated (T := nat) "2024-05-01T10:00:00.000Z" [] []
       (mkPaginationInput (of_Z 4503599627370497) (of_Z 3)
                          (of_Z 13510798882111492)) None
     = [CallStatus 200; CallJson body] ∧
     PaginationOutput.totalPages (PaginatedResponse.pagination body)
       = of_Z 4503599627370497 ∧
     4503599627370497 * 3 < 13510798882111492 ∧
     PaginationOutput.hasNextPage (PaginatedResponse.pagination body)
       = false).
Proof.
  split; eexists; (split; [apply (trace_status_json [])|]);
    vm_compute; repeat split.
Qed.

(** C6, amended. For non-negative integers [page], [limit], [total] with
    [limit > 0] and with [limit] and [total] below [2 ^ 53], the
    pagination block sent by [paginated] has [totalPages = n] for the
    integer [n] with
    [(n - 1) * limit < total <= n * limit], that is the ceiling of
    [total / limit]; [hasNextPage] is [page < n] and [hasPrevPage] is
    [page > 1].  For [total = 0] this gives [totalPages = 0] and
    [hasNextPage = false]. *)
Theorem paginated_pagination {T} (now : string)
    (res : list (SinkCall (PaginatedResponse.t T))) (data : list T)
    (page limit total : Z) (message : option string) :
  0 ≤ page → 0 < limit < 2 ^ 53 → 0 ≤ total < 2 ^ 53 →
  ∃ body n,
    paginated now res data
      (mkPaginationInput (of_Z page) (of_Z limit) (of_Z total)) message
      = res ++ [CallStatus 200; CallJson body] ∧
    PaginationOutput.totalPages (PaginatedResponse.pagination body) = of_Z n ∧
    (n - 1) * limit < total ≤ n * limit ∧
    PaginationOutput.hasNextPage (PaginatedResponse.pagination body)
      = bool_decide (page < n) ∧
    PaginationOutput.hasPrevPage (PaginatedResponse.pagination body)
      = bool_decide (page > 1) ∧
    (total = 0 →
       n = 0 ∧
       PaginationOutput.hasNextPage (PaginatedResponse.pagination body) = false).
Proof.
  intros Hpage Hlimit Htotal.
  destruct (totalPages_safe total limit Htotal Hlimit) as (n & Hceil & Hn).
  eexists. exists n.
  split; [apply trace_status_json|].
  cbn -[number_lt number_gt of_Z Math_ceil number_div].
  rewrite Hceil.
  split; [reflexivity|]. split; [exact Hn|].
  split; [apply number_lt_of_Z|].
  split.
  - unfold number_gt. rewrite number_lt_of_Z.
    apply bool_decide_ext. lia.
  - intros ->. split; [nia|].
    rewrite number_lt_of_Z. apply bool_decide_eq_false. nia.
Qed.

(** Page 5 of 50 items, ten per page: five pages, no next page, a previous
    one. *)
Lemma paginated_pagination_witness :
  ∃ body n,
    paginated (T := nat) "2024-05-01T10:00:00.000Z" [] []
      (mkPaginationInput (of_Z 5) (of_Z 10) (of_Z 50)) None
      = [CallStatus 200; CallJson body] ∧
    PaginationOutput.totalPages (PaginatedResponse.pagination body) = of_Z n ∧
    (n - 1) * 10 < 50 ≤ n * 10 ∧
    PaginationOutput.hasNextPage (PaginatedResponse.pagination body)
      = bool_decide (5 < n) ∧
    PaginationOutput.hasPrevPage (PaginatedResponse.pagination body)
      = bool_decide (5 > 1) ∧
    (50 = 0 →
       n = 0 ∧
       PaginationOutput.hasNextPage (PaginatedResponse.pagination body) = false).
Proof.
  apply (paginated_pagination (T := nat) "2024-05-01T10:00:00.000Z" [] []
           5 10 50 None); lia.
Defined.

(** Without a guard on [limit], a zero limit sends [NaN] or an infinity as
    [totalPages]: [NaN] for no items, otherwise the infinity whose sign is
    that of [total] for the limit [0] and the opposite one for the limit
    [-0]; a next page is reported exactly when that is [Infinity]. *)
Lemma paginated_limit_zero {T} (now : string)
    (res : list (SinkCall (PaginatedResponse.t T))) (data : list T)
    (page total : Z) (negative : bool) (message : option string) :
  ∃ body,
    paginated now res data
      (mkPaginationInput (of_Z page) (signed_zero negative) (of_Z total))
      message
      = res ++ [CallStatus 200; CallJson body] ∧
    PaginationOutput.totalPages (PaginatedResponse.pagination body) =
      (if (total =? 0)%Z then NaN
       else if xorb (total <? 0)%Z negative then NegInfinity else Infinity) ∧
    PaginationOutput.hasNextPage (PaginatedResponse.pagination body) =
      negb (total =? 0)%Z && negb (xorb (total <? 0)%Z negative).
Proof.
  eexists. split; [apply trace_status_json|].
  cbn -[of_Z number_div Math_ceil number_lt].
  assert (Hdiv : number_div (of_Z total) (signed_zero negative) =
                 if (total =? 0)%Z then NaN
                 else if xorb (total <? 0)%Z negative
                      then NegInfinity else Infinity).
  { destruct total as [|t|t], negative; reflexivity. }
  rewrite Hdiv.
  destruct (total =? 0)%Z; [by split|].
  destruct (xorb (total <? 0)%Z negative); by split.
Qed.

(** ** Scenarios of the test suite *)

Example success_defaults :
  success "2024-05-01T10:00:00.000Z" [] (1%Z, "John") None None None
  = [CallStatus 200;
     CallJson
       {| SuccessResponse.success := true;
          SuccessResponse.statusCode := 200;
          SuccessResponse.message := "Success";
          SuccessResponse.data := (1%Z, "John");
          SuccessResponse.meta :=
            {["timestamp" := JStr "2024-05-01T10:00:00.000Z"]} |}].
Proof. reflexivity. Qed.

Example error_defaults :
  error "2024-05-01T10:00:00.000Z" [] None None None None
  = [CallStatus 500;
     CallJson
       {| ErrorResponse.success := false;
          ErrorResponse.statusCode := 500;
          ErrorResponse.message := "An error occurred";
          ErrorResponse.errors := None;
          ErrorResponse.code := None;
          ErrorResponse.stack := None;
          ErrorResponse.meta :=
            {["timestamp" := JStr "2024-05-01T10:00:00.000Z"]} |}].
Proof. reflexivity. Qed.

Example notFound_defaults (trace : string) :
  AppError.statusCode (AppError.notFound trace None None) = 404 ∧
  AppError.code (AppError.notFound trace None None) = "NOT_FOUND" ∧
  AppError.message (AppError.notFound trace None None) = "Resource not found" ∧
  AppError.isOperational (AppError.notFound trace None None) = true.
Proof. repeat split. Qed.

(** ** The global error handler *)

Lemma truthy_string_true (s : string) : truthy s = true ↔ s ≠ "".
Proof.
  unfold truthy, string_truthy.
  destruct (String.eqb_spec s ""); simpl; split; congruence.
Qed.

Lemma truthy_string_false (s : string) : truthy s = false ↔ s = "".
Proof.
  unfold truthy, string_truthy.
  destruct (String.eqb_spec s ""); simpl; split; congruence.
Qed.

Lemma or_default_string (o : option string) (d : string) :
  or_default o d = match o with
                   | Some s => if decide (s = "") then d else s
                   | None => d
                   end.
Proof.
  destruct o as [s|]; [|reflexivity]. simpl.
  destruct (truthy s) eqn:Hs; case_decide as Hd; try reflexivity.
  - apply truthy_string_true in Hs. contradiction.
  - apply truthy_string_false in Hs. contradiction.
Qed.

Lemma effectiveStatus_cases (err : PlainError.t) :
  effectiveStatus err =
  match PlainError.statusCode err with
  | Some (StatusInt s) => if decide (s = 0) then 500 else s
  | Some StatusNaN => 500
  | None => 500
  end.
Proof.
  unfold effectiveStatus, status_or.
  destruct (PlainError.statusCode err) as [[s|]|]; try reflexivity.
  unfold truthy, Z_truthy.
  destruct (Z.eqb_spec s 0); case_decide; simpl; congruence.
Qed.

Lemma lookup_requestId_generateMeta (now : string) (m : Meta) :
  generateMeta now (Some m) !! "requestId" = m !! "requestId".
Proof.
  rewrite lookup_generateMeta. simpl.
  destruct (m !! "requestId"); reflexivity.
Qed.

Lemma lookup_requestId_meta (req : ApiRequest) :
  (match js_or (requestId req)
           (string_or_null (headers req !! "x-request-id")) with
   | Some id => if truthy id then {["requestId" := JStr id]} else ∅
   | None => ∅
   end : Meta) !! "requestId" = JStr <$> attachedId req.
Proof.
  unfold attachedId.
  destruct (js_or _ _) as [id|]; [|apply lookup_empty].
  destruct (truthy id); [apply lookup_singleton_eq | apply lookup_empty].
Qed.

(** What the extraction yields, by cases on the request. *)
Lemma attachedId_cases (req : ApiRequest) :
  attachedId req =
  match requestId req with
  | Some id =>
      if decide (id = "") then
        match headers req !! "x-request-id" with
        | Some (HString h) => if decide (h = "") then None else Some h
        | _ => None
        end
      else Some id
  | None =>
      match headers req !! "x-request-id" with
      | Some (HString h) => if decide (h = "") then None else Some h
      | _ => None
      end
  end.
Proof.
  assert (Hhdr : ∀ o : option HeaderValue,
    match string_or_null o with
    | Some id => if truthy id then Some id else None
    | None => None
    end = match o with
          | Some (HString h) => if decide (h = "") then None else Some h
          | _ => None
          end).
  { intros [[h|l]|]; simpl; try reflexivity.
    destruct (truthy h) eqn:Hh; case_decide as Hd; try reflexivity.
    - apply truthy_string_true in Hh. contradiction.
    - apply truthy_string_false in Hh. contradiction. }
  unfold attachedId, js_or.
  destruct (requestId req) as [id|]; [|apply Hhdr].
  change (truthy (Some id)) with (truthy id).
  destruct (truthy id) eqn:Hid; case_decide as Hd.
  - apply truthy_string_true in Hid. contradiction.
  - by rewrite Hid.
  - apply Hhdr.
  - apply truthy_string_false in Hid. contradiction.
Qed.

(** The envelope sent for an [AppError], field by field. *)
Lemma handler_appError (NODE_ENV : option string) (now : string)
    (err : AppError.t) (req : ApiRequest)
    (res : list (SinkCall ErrorResponse.t)) :
  ∃ body,
    globalErrorHandler NODE_ENV now (IsAppError err) req res
      = res ++ [CallStatus (AppError.statusCode err); CallJson body] ∧
    ErrorResponse.success body = false ∧
    ErrorResponse.statusCode body = AppError.statusCode err ∧
    ErrorResponse.message body = AppError.message err ∧
    ErrorResponse.errors body = None ∧
    ErrorResponse.code body = Some (AppError.code err) ∧
    ErrorResponse.stack body = None ∧
    ErrorResponse.meta body !! "requestId" = JStr <$> attachedId req.
Proof.
  eexists. split; [apply trace_status_json|].
  repeat split. cbn [ErrorResponse.meta].
  rewrite lookup_requestId_generateMeta. apply lookup_requestId_meta.
Qed.

(** The envelope sent for any other failure, field by field. *)
Lemma handler_plainError (NODE_ENV : option string) (now : string)
    (err : PlainError.t) (req : ApiRequest)
    (res : list (SinkCall ErrorResponse.t)) :
  let isProduction := bool_decide (NODE_ENV = Some "production") in
  ∃ body,
    globalErrorHandler NODE_ENV now (NotAppError err) req res
      = res ++ [CallStatus (effectiveStatus err); CallJson body] ∧
    ErrorResponse.success body = false ∧
    ErrorResponse.statusCode body = effectiveStatus err ∧
    ErrorResponse.message body =
      (if isProduction && (effectiveStatus err =? 500)
       then "Internal server error"
       else or_default (PlainError.message err)
                       "An unexpected error occurred") ∧
    ErrorResponse.errors body = None ∧
    ErrorResponse.code body = Some "INTERNAL_ERROR" ∧
    ErrorResponse.stack body =
      (if negb isProduction && truthy (PlainError.stack err)
       then PlainError.stack err else None) ∧
    ErrorResponse.meta body !! "requestId" = JStr <$> attachedId req.
Proof.
  intros isProduction.
  eexists. split; [apply trace_status_json|].
  fold isProduction. fold (effectiveStatus err).
  destruct (negb isProduction && truthy (PlainError.stack err));
    (repeat split; cbn [ErrorResponse.meta];
     rewrite lookup_requestId_generateMeta; apply lookup_requestId_meta).
Qed.

(** *** Operational failures *)

(** C1. For an [AppError] with status [S], code [C] and message [M] the
    handler sets the sink status to [S] and then sends an envelope with
    [statusCode = S], [code = C] and [message = M]; the calls made on the
    sink are the same for every value of [NODE_ENV]. *)
Theorem appError_envelope (NODE_ENV : option string) (now : string)
    (err : AppError.t) (req : ApiRequest)
    (res : list (SinkCall ErrorResponse.t)) :
  ∃ body,
    globalErrorHandler NODE_ENV now (IsAppError err) req res
      = res ++ [CallStatus (AppError.statusCode err); CallJson body] ∧
    ErrorResponse.success body = false ∧
    ErrorResponse.statusCode body = AppError.statusCode err ∧
    ErrorResponse.code body = Some (AppError.code err) ∧
    ErrorResponse.message body = AppError.message err ∧
    ∀ NODE_ENV',
      globalErrorHandler NODE_ENV' now (IsAppError err) req res
      = globalErrorHandler NODE_ENV now (IsAppError err) req res.
Proof.
  destruct (handler_appError NODE_ENV now err req res)
    as (body & Hsent & Hsuccess & Hstatus & Hmessage & _ & Hcode & _).
  exists body. repeat split; try assumption.
Qed.

(** C10. The envelope sent for an [AppError] has no [stack] field, in every
    deployment mode and whatever stack the error holds; an error built by
    the constructor does hold the captured trace. *)
Theorem appError_no_stack (NODE_ENV : option string) (now : string)
    (err : AppError.t) (req : ApiRequest)
    (res : list (SinkCall ErrorResponse.t)) :
  (∃ body,
     globalErrorHandler NODE_ENV now (IsAppError err) req res
       = res ++ [CallStatus (AppError.statusCode err); CallJson body] ∧
     ErrorResponse.stack body = None) ∧
  ∀ trace message statusCode code,
    AppError.stack (AppError.new trace message statusCode code) = Some trace.
Proof.
  split; [|reflexivity].
  destruct (handler_appError NODE_ENV now err req res)
    as (body & Hsent & _ & _ & _ & _ & _ & Hstack & _).
  by exists body.
Qed.

(** *** Unknown failures in production *)

Lemma handler_meta_correlationMeta (req : ApiRequest) :
  (match js_or (requestId req)
           (string_or_null (headers req !! "x-request-id")) with
   | Some id => if truthy id then {["requestId" := JStr id]} else ∅
   | None => ∅
   end : Meta) = correlationMeta req.
Proof.
  unfold correlationMeta, attachedId.
  destruct (js_or _ _) as [id|]; [|reflexivity].
  destruct (truthy id); reflexivity.
Qed.

Lemma handler_production_500 (now : string) (err : PlainError.t)
    (req : ApiRequest) (res : list (SinkCall ErrorResponse.t)) :
  effectiveStatus err = 500 →
  globalErrorHandler (Some "production") now (NotAppError err) req res
  = res ++ [CallStatus 500; CallJson (redactedEnvelope now req)].
Proof.
  intros Hstatus. unfold globalErrorHandler. cbv zeta.
  fold (effectiveStatus err).
  rewrite Hstatus, handler_meta_correlationMeta.
  apply trace_status_json.
Qed.

(** C2. In production every unknown failure whose effective status is 500,
    which includes every failure without a [statusCode] field, is answered
    with one and the same envelope: status 500, message
    ["Internal server error"], code ["INTERNAL_ERROR"] and no [stack]
    field.  The envelope does not depend on the failure at all, so neither
    its message nor its stack can show. *)
Theorem production_500_redacted (now : string) (req : ApiRequest)
    (res : list (SinkCall ErrorResponse.t)) :
  ∃ body,
    ErrorResponse.statusCode body = 500 ∧
    ErrorResponse.message body = "Internal server error" ∧
    ErrorResponse.code body = Some "INTERNAL_ERROR" ∧
    ErrorResponse.stack body = None ∧
    (∀ err,
       effectiveStatus err = 500 →
       globalErrorHandler (Some "production") now (NotAppError err) req res
       = res ++ [CallStatus 500; CallJson body]) ∧
    (∀ err, PlainError.statusCode err = None → effectiveStatus err = 500).
Proof.
  exists (redactedEnvelope now req). repeat split.
  - intros err. apply handler_production_500.
  - intros err Hnone. by rewrite effectiveStatus_cases, Hnone.
Qed.

(** A plain failure with a telling message and a stack, in production. *)
Lemma production_500_redacted_witness :
  ∃ body,
    globalErrorHandler (Some "production") "2024-05-01T10:00:00.000Z"
      (NotAppError
         (PlainError.mk (Some "Sensitive details") None
                        (Some "Error: Sensitive details at db.js:10")))
      (mkApiRequest None ∅) []
    = [CallStatus 500; CallJson body] ∧
    ErrorResponse.message body = "Internal server error" ∧
    ErrorResponse.stack body = None.
Proof.
  destruct (production_500_redacted "2024-05-01T10:00:00.000Z"
              (mkApiRequest None ∅) [])
    as (body & _ & Hmessage & _ & Hstack & Hsent & Hnone).
  exists body. split; [|split; assumption].
  apply Hsent, Hnone. reflexivity.
Defined.

(** A failure that carries a falsy status, 0 or [NaN], is treated like one
    that carries none, and an empty message is replaced by the fallback
    text: all three come from the [||] in the handler. *)
Lemma production_explicit_status_counterexample :
  (∃ body,
     globalErrorHandler (Some "production") "2024-05-01T10:00:00.000Z"
       (NotAppError (PlainError.mk (Some "Not found") (Some (StatusInt 0)) None))
       (mkApiRequest None ∅) []
     = [CallStatus 500; CallJson body] ∧
     ErrorResponse.statusCode body = 500 ∧
     ErrorResponse.statusCode body ≠ 0 ∧
     ErrorResponse.message body = "Internal server error" ∧
     ErrorResponse.message body ≠ "Not found") ∧
  (∃ body,
     globalErrorHandler (Some "production") "2024-05-01T10:00:00.000Z"
       (NotAppError (PlainError.mk (Some "Not found") (Some StatusNaN) None))
       (mkApiRequest None ∅) []
     = [CallStatus 500; CallJson body] ∧
     ErrorResponse.statusCode body = 500 ∧
     ErrorResponse.message body = "Internal server error" ∧
     ErrorResponse.message body ≠ "Not found") ∧
  (∃ body,
     globalErrorHandler (Some "production") "2024-05-01T10:00:00.000Z"
       (NotAppError (PlainError.mk (Some "") (Some (StatusInt 404)) None))
       (mkApiRequest None ∅) []
     = [CallStatus 404; CallJson body] ∧
     ErrorResponse.statusCode body = 404 ∧
     ErrorResponse.message body = "An unexpected error occurred" ∧
     ErrorResponse.message body ≠ "").
Proof.
  split; [|split]; eexists; (split; [reflexivity|]); repeat split;
    discriminate.
Qed.

(** C3, amended. In production an unknown failure that carries an integer
    [statusCode] other than 500 and 0 is answered with that status, on the
    sink and in the envelope, and its message is not redacted: a non-empty
    message of the failure is passed on unchanged, and a failure whose
    message is empty or absent gets ["An unexpected error occurred"]. *)
Theorem production_explicit_status_preserved (now : string)
    (err : PlainError.t) (req : ApiRequest)
    (res : list (SinkCall ErrorResponse.t)) (s : Z) :
  PlainError.statusCode err = Some (StatusInt s) → s ≠ 500 → s ≠ 0 →
  ∃ body,
    globalErrorHandler (Some "production") now (NotAppError err) req res
      = res ++ [CallStatus s; CallJson body] ∧
    ErrorResponse.statusCode body = s ∧
    (∀ m, PlainError.message err = Some m → m ≠ "" →
          ErrorResponse.message body = m) ∧
    (PlainError.message err = None ∨ PlainError.message err = Some "" →
     ErrorResponse.message body = "An unexpected error occurred").
Proof.
  intros Hs H500 H0.
  destruct (handler_plainError (Some "production") now err req res)
    as (body & Hsent & _ & Hstatus & Hmessage & _).
  assert (Heff : effectiveStatus err = s).
  { rewrite effectiveStatus_cases, Hs. by rewrite decide_False. }
  rewrite Heff in *.
  exists body. split; [assumption|]. split; [assumption|].
  destruct (Z.eqb_spec s 500) as [|_]; [contradiction|].
  rewrite andb_false_r, or_default_string in Hmessage.
  split.
  - intros m Hm Hne. rewrite Hmessage, Hm. by rewrite decide_False.
  - intros [Hm|Hm]; rewrite Hmessage, Hm; [reflexivity|].
    by rewrite decide_True.
Qed.

(** The test suite's case, a failure with status 404 and message
    ["Not found"], and the same failure without a message. *)
Lemma production_explicit_status_preserved_witness :
  (∃ body,
     globalErrorHandler (Some "production") "2024-05-01T10:00:00.000Z"
       (NotAppError
          (PlainError.mk (Some "Not found") (Some (StatusInt 404)) None))
       (mkApiRequest None ∅) []
     = [CallStatus 404; CallJson body] ∧
     ErrorResponse.statusCode body = 404 ∧
     ErrorResponse.message body = "Not found") ∧
  (∃ body,
     globalErrorHandler (Some "production") "2024-05-01T10:00:00.000Z"
       (NotAppError (PlainError.mk None (Some (StatusInt 404)) None))
       (mkApiRequest None ∅) []
     = [CallStatus 404; CallJson body] ∧
     ErrorResponse.message body = "An unexpected error occurred").
Proof.
  split.
  - destruct (production_explicit_status_preserved
                "2024-05-01T10:00:00.000Z"
                (PlainError.mk (Some "Not found") (Some (StatusInt 404)) None)
                (mkApiRequest None ∅) [] 404)
      as (body & Hsent & Hstatus & Hmessage & _);
      [reflexivity | lia | lia |].
    exists body. split; [assumption|]. split; [assumption|].
    apply Hmessage; [reflexivity | discriminate].
  - destruct (production_explicit_status_preserved
                "2024-05-01T10:00:00.000Z"
                (PlainError.mk None (Some (StatusInt 404)) None)
                (mkApiRequest None ∅) [] 404)
      as (body & Hsent & _ & _ & Hfallback);
      [reflexivity | lia | lia |].
    exists body. split; [assumption|].
    apply Hfallback. left. reflexivity.
Defined.

(** *** Unknown failures outside production *)

(** An empty message is present but falsy, and so is an empty stack: the
    fallback text is sent and no [stack] field is attached. *)
Lemma development_empty_message_counterexample :
  ∃ body,
    globalErrorHandler (Some "development") "2024-05-01T10:00:00.000Z"
      (NotAppError (PlainError.mk (Some "") None (Some "")))
      (mkApiRequest None ∅) []
    = [CallStatus 500; CallJson body] ∧
    ErrorResponse.message body = "An unexpected error occurred" ∧
    ErrorResponse.message body ≠ "" ∧
    ErrorResponse.stack body = None.
Proof.
  eexists. split; [reflexivity|]. repeat split. discriminate.
Qed.

(** C4, amended. Outside production the envelope for an unknown failure
    carries the failure's message when that is a non-empty string and
    ["An unexpected error occurred"] when it is absent or empty; its code is
    ["INTERNAL_ERROR"]; and it has a [stack] field exactly when the failure
    has a non-empty stack, which is then the field's value. *)
Theorem development_envelope (NODE_ENV : option string) (now : string)
    (err : PlainError.t) (req : ApiRequest)
    (res : list (SinkCall ErrorResponse.t)) :
  NODE_ENV ≠ Some "production" →
  ∃ body,
    globalErrorHandler NODE_ENV now (NotAppError err) req res
      = res ++ [CallStatus (effectiveStatus err); CallJson body] ∧
    (∀ m, PlainError.message err = Some m → m ≠ "" →
          ErrorResponse.message body = m) ∧
    (PlainError.message err = None ∨ PlainError.message err = Some "" →
     ErrorResponse.message body = "An unexpected error occurred") ∧
    ErrorResponse.code body = Some "INTERNAL_ERROR" ∧
    (∀ s, ErrorResponse.stack body = Some s ↔
          PlainError.stack err = Some s ∧ s ≠ "").
Proof.
  intros Hdev.
  destruct (handler_plainError NODE_ENV now err req res)
    as (body & Hsent & _ & _ & Hmessage & _ & Hcode & Hstack & _).
  rewrite bool_decide_eq_false_2 in Hmessage, Hstack by assumption.
  simpl in Hmessage, Hstack.
  exists body. split; [assumption|].
  rewrite or_default_string in Hmessage.
  split; [|split; [|split; [assumption|]]].
  - intros m Hm Hne. rewrite Hmessage, Hm. by rewrite decide_False.
  - intros [Hm|Hm]; rewrite Hmessage, Hm; [reflexivity|].
    by rewrite decide_True.
  - intros s. rewrite Hstack.
    destruct (PlainError.stack err) as [t|]; simpl.
    + change (truthy (Some t)) with (truthy t).
      destruct (truthy t) eqn:Ht.
      * apply truthy_string_true in Ht. split.
        -- intros [= <-]. by split.
        -- by intros [? _].
      * apply truthy_string_false in Ht. split; [discriminate|].
        intros [[= <-] Hne]. contradiction.
    + split; [discriminate | by intros [? _]].
Qed.

(** The test suite's case: a failure with a message and a stack while
    [NODE_ENV] is ["development"]. *)
Lemma development_envelope_witness :
  ∃ body,
    globalErrorHandler (Some "development") "2024-05-01T10:00:00.000Z"
      (NotAppError
         (PlainError.mk (Some "Detailed error message") None
                        (Some "Error: Detailed error message at app.js:3")))
      (mkApiRequest None ∅) []
    = [CallStatus 500; CallJson body] ∧
    ErrorResponse.message body = "Detailed error message" ∧
    ErrorResponse.code body = Some "INTERNAL_ERROR" ∧
    ErrorResponse.stack body
      = Some "Error: Detailed error message at app.js:3".
Proof.
  destruct (development_envelope (Some "development")
              "2024-05-01T10:00:00.000Z"
              (PlainError.mk (Some "Detailed error message") None
                 (Some "Error: Detailed error message at app.js:3"))
              (mkApiRequest None ∅) [])
    as (body & Hsent & Hmessage & _ & Hcode & Hstack); [discriminate|].
  exists body. split; [assumption|].
  split; [apply Hmessage; [reflexivity | discriminate]|].
  split; [assumption|].
  apply Hstack. split; [reflexivity | discriminate].
Defined.

(** *** Request correlation *)

(** Whatever the failure, the handler makes two calls on the sink and the
    envelope's [meta] holds the extracted id under [requestId]. *)
Lemma handler_requestId (NODE_ENV : option string) (now : string)
    (err : Thrown) (req : ApiRequest)
    (res : list (SinkCall ErrorResponse.t)) :
  ∃ code body,
    globalErrorHandler NODE_ENV now err req res
      = res ++ [CallStatus code; CallJson body] ∧
    ErrorResponse.meta body !! "requestId" = JStr <$> attachedId req.
Proof.
  destruct err as [err|err].
  - destruct (handler_appError NODE_ENV now err req res)
      as (body & Hsent & _ & _ & _ & _ & _ & _ & Hmeta).
    by exists (AppError.statusCode err), body.
  - destruct (handler_plainError NODE_ENV now err req res)
      as (body & Hsent & _ & _ & _ & _ & _ & _ & Hmeta).
    by exists (effectiveStatus err), body.
Qed.

(** A [requestId] field that is present but empty loses against the
    header. *)
Lemma empty_field_loses_to_header :
  ∃ body,
    globalErrorHandler None "2024-05-01T10:00:00.000Z"
      (IsAppError (AppError.new "AppError: Error at app.js:3" "Error"
                     (Some 400) (Some "ERROR")))
      (mkApiRequest (Some "") {["x-request-id" := HString "header-123"]}) []
    = [CallStatus 400; CallJson body] ∧
    ErrorResponse.meta body !! "requestId" = Some (JStr "header-123") ∧
    ErrorResponse.meta body !! "requestId" ≠ Some (JStr "").
Proof.
  eexists. split; [apply (trace_status_json [])|].
  split; [|intros Heq]; vm_compute in *; [reflexivity | discriminate].
Qed.

(** C5, amended. When the request carries a non-empty [requestId] field and
    an [x-request-id] header entry, the envelope's [meta.requestId] is the
    field's value, not the header's; when the request carries neither,
    [meta] has no [requestId]. *)
Theorem requestId_precedence (NODE_ENV : option string) (now : string)
    (err : Thrown) (req : ApiRequest)
    (res : list (SinkCall ErrorResponse.t)) :
  ∃ code body,
    globalErrorHandler NODE_ENV now err req res
      = res ++ [CallStatus code; CallJson body] ∧
    (∀ id h,
       requestId req = Some id → id ≠ "" →
       headers req !! "x-request-id" = Some h →
       ErrorResponse.meta body !! "requestId" = Some (JStr id)) ∧
    (requestId req = None → headers req !! "x-request-id" = None →
     ErrorResponse.meta body !! "requestId" = None).
Proof.
  destruct (handler_requestId NODE_ENV now err req res)
    as (code & body & Hsent & Hmeta).
  exists code, body. split; [assumption|].
  rewrite Hmeta, attachedId_cases. split.
  - intros id h Hid Hne _. rewrite Hid. by rewrite decide_False.
  - intros Hid Hh. by rewrite Hid, Hh.
Qed.

(** The test suite's case: field ["req-123"] and header ["header-123"]. *)
Lemma requestId_precedence_witness :
  ∃ code body,
    globalErrorHandler None "2024-05-01T10:00:00.000Z"
      (IsAppError (AppError.new "AppError: Error at app.js:3" "Error"
                     (Some 400) (Some "ERROR")))
      (mkApiRequest (Some "req-123")
                    {["x-request-id" := HString "header-123"]}) []
    = [CallStatus code; CallJson body] ∧
    ErrorResponse.meta body !! "requestId" = Some (JStr "req-123").
Proof.
  destruct (requestId_precedence None "2024-05-01T10:00:00.000Z"
              (IsAppError (AppError.new "AppError: Error at app.js:3" "Error"
                             (Some 400) (Some "ERROR")))
              (mkApiRequest (Some "req-123")
                            {["x-request-id" := HString "header-123"]}) [])
    as (code & body & Hsent & Hboth & _).
  exists code, body. split; [assumption|].
  apply (Hboth "req-123" (HString "header-123"));
    [reflexivity | discriminate | vm_compute; reflexivity].
Defined.

(** With an empty [requestId] field and an empty header string nothing is
    attached, although the header is a single string. *)
Lemma empty_requestId_counterexample :
  ∃ body,
    globalErrorHandler None "2024-05-01T10:00:00.000Z"
      (IsAppError (AppError.new "AppError: Error at app.js:3" "Error"
                     (Some 400) (Some "ERROR")))
      (mkApiRequest (Some "") {["x-request-id" := HString ""]}) []
    = [CallStatus 400; CallJson body] ∧
    ErrorResponse.meta body !! "requestId" = None ∧
    ErrorResponse.meta body !! "requestId" ≠ Some (JStr "").
Proof.
  eexists. split; [apply (trace_status_json [])|].
  split; [|intros Heq]; vm_compute in *; [reflexivity | discriminate].
Qed.

(** C9, amended. A [requestId] field that is present but empty is not used:
    the id is taken from the [x-request-id] header when that is a single
    non-empty string, and no id is attached when the header is an empty
    string, a list of strings or absent. *)
Theorem empty_requestId_falls_through (NODE_ENV : option string)
    (now : string) (err : Thrown) (req : ApiRequest)
    (res : list (SinkCall ErrorResponse.t)) :
  requestId req = Some "" →
  ∃ code body,
    globalErrorHandler NODE_ENV now err req res
      = res ++ [CallStatus code; CallJson body] ∧
    ErrorResponse.meta body !! "requestId" =
      match headers req !! "x-request-id" with
      | Some (HString h) => if decide (h = "") then None else Some (JStr h)
      | Some (HArray _) => None
      | None => None
      end.
Proof.
  intros Hid.
  destruct (handler_requestId NODE_ENV now err req res)
    as (code & body & Hsent & Hmeta).
  exists code, body. split; [assumption|].
  rewrite Hmeta, attachedId_cases, Hid. rewrite decide_True by reflexivity.
  destruct (headers req !! "x-request-id") as [[h|l]|]; try reflexivity.
  by case_decide.
Qed.

(** An empty field and the header ["header-123"]: the header's value is
    attached. *)
Lemma empty_requestId_falls_through_witness :
  ∃ code body,
    globalErrorHandler None "2024-05-01T10:00:00.000Z"
      (NotAppError (PlainError.mk (Some "Something broke") None None))
      (mkApiRequest (Some "") {["x-request-id" := HString "header-123"]}) []
    = [CallStatus code; CallJson body] ∧
    ErrorResponse.meta body !! "requestId" = Some (JStr "header-123").
Proof.
  destruct (empty_requestId_falls_through None "2024-05-01T10:00:00.000Z"
              (NotAppError (PlainError.mk (Some "Something broke") None None))
              (mkApiRequest (Some "")
                            {["x-request-id" := HString "header-123"]}) [])
    as (code & body & Hsent & Hmeta); [reflexivity|].
  exists code, body. split; [assumption|].
  rewrite Hmeta. vm_compute. reflexivity.
Defined.

(** * Further properties *)

(** ** What the handler sends, in full *)

Lemma handler_sent (NODE_ENV : option string) (now : string)
    (err : Thrown) (req : ApiRequest)
    (res : list (SinkCall ErrorResponse.t)) :
  globalErrorHandler NODE_ENV now err req res = res ++
    match err with
    | IsAppError err =>
        [CallStatus (AppError.statusCode err);
         CallJson
           {| ErrorResponse.success := false;
              ErrorResponse.statusCode := AppError.statusCode err;
              ErrorResponse.message := AppError.message err;
              ErrorResponse.errors := None;
              ErrorResponse.code := Some (AppError.code err);
              ErrorResponse.stack := None;
              ErrorResponse.meta :=
                generateMeta now (Some (correlationMeta req)) |}]
    | NotAppError err =>
        let isProduction := bool_decide (NODE_ENV = Some "production") in
        [CallStatus (effectiveStatus err);
         CallJson
           {| ErrorResponse.success := false;
              ErrorResponse.statusCode := effectiveStatus err;
              ErrorResponse.message :=
                if isProduction && (effectiveStatus err =? 500)
                then "Internal server error"
                else or_default (PlainError.message err)
                                "An unexpected error occurred";
              ErrorResponse.errors := None;
              ErrorResponse.code := Some "INTERNAL_ERROR";
              ErrorResponse.stack :=
                if negb isProduction && truthy (PlainError.stack err)
                then PlainError.stack err else None;
              ErrorResponse.meta :=
                generateMeta now (Some (correlationMeta req)) |}]
    end.
Proof.
  unfold globalErrorHandler. cbv zeta.
  rewrite handler_meta_correlationMeta.
  destruct err as [err|err]; [apply trace_status_json|].
  fold (effectiveStatus err). rewrite trace_status_json.
  destruct (negb _ && truthy (PlainError.stack err)); reflexivity.
Qed.

Lemma generateMeta_correlationMeta (now : string) (req : ApiRequest) :
  generateMeta now (Some (correlationMeta req)) =
  match attachedId req with
  | Some id => {["timestamp" := JStr now; "requestId" := JStr id]}
  | None => {["timestamp" := JStr now]}
  end.
Proof.
  apply map_eq. intros k. rewrite lookup_generateMeta. unfold correlationMeta.
  destruct (attachedId req) as [id|]; simpl.
  - destruct (decide (k = "requestId")) as [->|Hk].
    + rewrite lookup_singleton_eq. rewrite lookup_insert_ne by done.
      by rewrite lookup_singleton_eq.
    + rewrite lookup_singleton_ne by done.
      case_decide as Ht.
      * subst k. by rewrite lookup_insert_eq.
      * rewrite lookup_insert_ne by done. by rewrite lookup_singleton_ne.
  - rewrite lookup_empty. case_decide as Ht.
    + subst k. by rewrite lookup_singleton_eq.
    + by rewrite lookup_singleton_ne.
Qed.

(** ** Invariants of the handler *)

(** Whatever the failure and the deployment mode, the status set on the
    sink is the [statusCode] of the envelope sent; the envelope has
    [success = false], no [errors] key and always a [code]. *)
Theorem handler_status_matches_body (NODE_ENV : option string) (now : string)
    (err : Thrown) (req : ApiRequest)
    (res : list (SinkCall ErrorResponse.t)) :
  ∃ code body,
    globalErrorHandler NODE_ENV now err req res
      = res ++ [CallStatus code; CallJson body] ∧
    ErrorResponse.statusCode body = code ∧
    ErrorResponse.success body = false ∧
    ErrorResponse.errors body = None ∧
    is_Some (ErrorResponse.code body).
Proof.
  rewrite handler_sent.
  destruct err as [err|err]; do 2 eexists; (split; [reflexivity|]);
    repeat split; by eexists.
Qed.

(** The envelope's [meta] holds the generated timestamp and, when a
    correlation id was extracted, that id under [requestId]: nothing else,
    and nothing taken from the failure. *)
Theorem handler_meta_exact (NODE_ENV : option string) (now : string)
    (err : Thrown) (req : ApiRequest)
    (res : list (SinkCall ErrorResponse.t)) :
  ∃ code body,
    globalErrorHandler NODE_ENV now err req res
      = res ++ [CallStatus code; CallJson body] ∧
    ErrorResponse.meta body =
      match attachedId req with
      | Some id => {["timestamp" := JStr now; "requestId" := JStr id]}
      | None => {["timestamp" := JStr now]}
      end.
Proof.
  rewrite handler_sent.
  destruct err as [err|err]; do 2 eexists; (split; [reflexivity|]);
    apply generateMeta_correlationMeta.
Qed.

(** In production no envelope carries a [stack], for [AppError]s and for
    unknown failures of any status. *)
Theorem production_never_stack (now : string) (err : Thrown)
    (req : ApiRequest) (res : list (SinkCall ErrorResponse.t)) :
  ∃ code body,
    globalErrorHandler (Some "production") now err req res
      = res ++ [CallStatus code; CallJson body] ∧
    ErrorResponse.stack body = None.
Proof.
  rewrite handler_sent.
  destruct err as [err|err]; do 2 eexists; (split; [reflexivity|]);
    reflexivity.
Qed.

(** The deployment mode changes nothing but the message and the stack:
    the sink status and the envelope's [statusCode], [code] and [meta] are
    the same under any two values of [NODE_ENV]; so is the message unless
    the failure is an unknown one of effective status 500; and any two
    values other than ["production"] give the same envelope. *)
Theorem deployment_mode_scope (env1 env2 : option string) (now : string)
    (err : Thrown) (req : ApiRequest)
    (res : list (SinkCall ErrorResponse.t)) :
  ∃ code body1 body2,
    globalErrorHandler env1 now err req res
      = res ++ [CallStatus code; CallJson body1] ∧
    globalErrorHandler env2 now err req res
      = res ++ [CallStatus code; CallJson body2] ∧
    ErrorResponse.statusCode body1 = ErrorResponse.statusCode body2 ∧
    ErrorResponse.code body1 = ErrorResponse.code body2 ∧
    ErrorResponse.meta body1 = ErrorResponse.meta body2 ∧
    ((∀ e, err = NotAppError e → effectiveStatus e ≠ 500) →
     ErrorResponse.message body1 = ErrorResponse.message body2) ∧
    (env1 ≠ Some "production" → env2 ≠ Some "production" → body1 = body2).
Proof.
  rewrite !handler_sent.
  destruct err as [err|err]; do 3 eexists;
    (split; [reflexivity|]); (split; [reflexivity|]);
    (split; [reflexivity|]); (split; [reflexivity|]);
    (split; [reflexivity|]); split; try reflexivity.
  - intros Hne. cbn [ErrorResponse.message].
    destruct (Z.eqb_spec (effectiveStatus err) 500) as [Heq|_].
    + by destruct (Hne err).
    + by rewrite !andb_false_r.
  - intros H1 H2. by rewrite !bool_decide_eq_false_2.
Qed.

(** A failure with status 404 keeps its message in production. *)
Lemma deployment_mode_scope_witness :
  ∃ code body1 body2,
    globalErrorHandler (Some "production") "2024-05-01T10:00:00.000Z"
      (NotAppError (PlainError.mk (Some "Not found") (Some (StatusInt 404)) None))
      (mkApiRequest None ∅) []
      = [CallStatus code; CallJson body1] ∧
    globalErrorHandler None "2024-05-01T10:00:00.000Z"
      (NotAppError (PlainError.mk (Some "Not found") (Some (StatusInt 404)) None))
      (mkApiRequest None ∅) []
      = [CallStatus code; CallJson body2] ∧
    ErrorResponse.message body1 = ErrorResponse.message body2.
Proof.
  destruct (deployment_mode_scope (Some "production") None
              "2024-05-01T10:00:00.000Z"
              (NotAppError (PlainError.mk (Some "Not found") (Some (StatusInt 404)) None))
              (mkApiRequest None ∅) [])
    as (code & body1 & body2 & H1 & H2 & _ & _ & _ & Hmessage & _).
  exists code, body1, body2. split; [assumption|]. split; [assumption|].
  apply Hmessage. intros e [= <-]. vm_compute. discriminate.
Defined.

(** Without a [requestId] field the id comes from the [x-request-id]
    header when that is a single non-empty string; a header that is a list
    of strings, empty or absent gives no id. *)
Theorem header_fallback (NODE_ENV : option string)
    (now : string) (err : Thrown) (req : ApiRequest)
    (res : list (SinkCall ErrorResponse.t)) :
  requestId req = None →
  ∃ code body,
    globalErrorHandler NODE_ENV now err req res
      = res ++ [CallStatus code; CallJson body] ∧
    ErrorResponse.meta body !! "requestId" =
      match headers req !! "x-request-id" with
      | Some (HString h) => if decide (h = "") then None else Some (JStr h)
      | Some (HArray _) => None
      | None => None
      end.
Proof.
  intros Hid.
  destruct (handler_requestId NODE_ENV now err req res)
    as (code & body & Hsent & Hmeta).
  exists code, body. split; [assumption|].
  rewrite Hmeta, attachedId_cases, Hid.
  destruct (headers req !! "x-request-id") as [[h|l]|]; try reflexivity.
  by case_decide.
Qed.

(** A header holding two values is not used. *)
Lemma header_fallback_witness :
  ∃ code body,
    globalErrorHandler None "2024-05-01T10:00:00.000Z"
      (NotAppError (PlainError.mk (Some "Something broke") None None))
      (mkApiRequest None {["x-request-id" := HArray ["a"; "b"]]}) []
    = [CallStatus code; CallJson body] ∧
    ErrorResponse.meta body !! "requestId" = None.
Proof.
  destruct (header_fallback None "2024-05-01T10:00:00.000Z"
              (NotAppError (PlainError.mk (Some "Something broke") None None))
              (mkApiRequest None {["x-request-id" := HArray ["a"; "b"]]}) [])
    as (code & body & Hsent & Hmeta); [reflexivity|].
  exists code, body. split; [assumption|].
  rewrite Hmeta. vm_compute. reflexivity.
Defined.

(** For an unknown failure the status set on the sink is never 0: a
    carried non-zero integer [statusCode] is used as it is, and a carried
    0, a carried [NaN] or a missing one becomes 500. *)
Theorem unknown_status_never_zero (NODE_ENV : option string) (now : string)
    (err : PlainError.t) (req : ApiRequest)
    (res : list (SinkCall ErrorResponse.t)) :
  ∃ code body,
    globalErrorHandler NODE_ENV now (NotAppError err) req res
      = res ++ [CallStatus code; CallJson body] ∧
    code ≠ 0 ∧
    (∀ s, PlainError.statusCode err = Some (StatusInt s) → s ≠ 0 →
          code = s) ∧
    (PlainError.statusCode err = Some (StatusInt 0) ∨
     PlainError.statusCode err = Some StatusNaN ∨
     PlainError.statusCode err = None →
     code = 500).
Proof.
  rewrite handler_sent. do 2 eexists. split; [reflexivity|].
  rewrite effectiveStatus_cases.
  destruct (PlainError.statusCode err) as [[s|]|].
  - case_decide as Hs.
    + subst s. split; [done|]. split; [by intros s [= <-]|done].
    + split; [done|]. split; [by intros ? [= <-]|].
      by intros [[= ->]|[[=]|[=]]].
  - split; [done|]. split; [by intros s [=]|done].
  - split; [done|]. split; [by intros s [=]|done].
Qed.

(** A carried 418 is passed on; a carried [NaN] becomes 500. *)
Lemma unknown_status_never_zero_witness :
  (∃ code body,
     globalErrorHandler None "2024-05-01T10:00:00.000Z"
       (NotAppError (PlainError.mk (Some "Teapot") (Some (StatusInt 418)) None))
       (mkApiRequest None ∅) []
     = [CallStatus code; CallJson body] ∧ code = 418) ∧
  (∃ code body,
     globalErrorHandler None "2024-05-01T10:00:00.000Z"
       (NotAppError (PlainError.mk (Some "Teapot") (Some StatusNaN) None))
       (mkApiRequest None ∅) []
     = [CallStatus code; CallJson body] ∧ code = 500).
Proof.
  split.
  - destruct (unknown_status_never_zero None "2024-05-01T10:00:00.000Z"
                (PlainError.mk (Some "Teapot") (Some (StatusInt 418)) None)
                (mkApiRequest None ∅) [])
      as (code & body & Hsent & _ & Hcarried & _).
    exists code, body. split; [assumption|].
    apply Hcarried; [reflexivity | lia].
  - destruct (unknown_status_never_zero None "2024-05-01T10:00:00.000Z"
                (PlainError.mk (Some "Teapot") (Some StatusNaN) None)
                (mkApiRequest None ∅) [])
      as (code & body & Hsent & _ & _ & Hfalsy).
    exists code, body. split; [assumption|].
    apply Hfalsy. right. left. reflexivity.
Defined.

(** [AppError.internal()] with its default message and code is answered,
    in every deployment mode, exactly as an unknown failure of effective
    status 500 is answered in production. *)
Theorem internal_default_is_redacted (NODE_ENV : option string)
    (now trace : string) (err : PlainError.t) (req : ApiRequest)
    (res : list (SinkCall ErrorResponse.t)) :
  effectiveStatus err = 500 →
  globalErrorHandler NODE_ENV now
    (IsAppError (AppError.internal trace None None)) req res
  = globalErrorHandler (Some "production") now (NotAppError err) req res.
Proof.
  intros Hstatus. rewrite !handler_sent. cbv zeta. by rewrite Hstatus.
Qed.

(** In development and in production. *)
Lemma internal_default_is_redacted_witness :
  globalErrorHandler (Some "development") "2024-05-01T10:00:00.000Z"
    (IsAppError (AppError.internal "AppError at app.js:3" None None))
    (mkApiRequest None ∅) []
  = globalErrorHandler (Some "production") "2024-05-01T10:00:00.000Z"
      (NotAppError (PlainError.mk (Some "Sensitive details") None
                                  (Some "Error at db.js:10")))
      (mkApiRequest None ∅) [].
Proof.
  apply (internal_default_is_redacted (Some "development")
           "2024-05-01T10:00:00.000Z" "AppError at app.js:3"
           (PlainError.mk (Some "Sensitive details") None
                          (Some "Error at db.js:10"))
           (mkApiRequest None ∅) []).
  reflexivity.
Defined.

(** ** The [error] and [success] builders *)

Lemma lookup_generateMeta_supplied (now : string) (extra : option Meta)
    (k : string) (v : jsval) :
  default ∅ extra !! k = Some v → generateMeta now extra !! k = Some v.
Proof. intros Hk. by rewrite lookup_generateMeta, Hk. Qed.

Lemma lookup_generateMeta_timestamp (now : string) (extra : option Meta) :
  default ∅ extra !! "timestamp" = None →
  generateMeta now extra !! "timestamp" = Some (JStr now).
Proof. intros Hk. rewrite lookup_generateMeta, Hk. by rewrite decide_True. Qed.

(** [error] sets the status it puts in the envelope (500 when omitted); the
    envelope has [success = false], the [errors] key exactly when the
    argument is not [null], never a [code] or a [stack], and a [meta] with
    every entry the caller supplied and, unless the caller supplied one,
    the generated timestamp. *)
Theorem error_envelope (now : string) (res : list (SinkCall ErrorResponse.t))
    (message : option string) (statusCode : option Z)
    (errors : option ErrorDetails) (meta : option Meta) :
  ∃ body,
    error now res message statusCode errors meta
      = res ++ [CallStatus (default 500 statusCode); CallJson body] ∧
    ErrorResponse.success body = false ∧
    ErrorResponse.statusCode body = default 500 statusCode ∧
    ErrorResponse.message body = default "An error occurred" message ∧
    ErrorResponse.errors body = errors ∧
    ErrorResponse.code body = None ∧
    ErrorResponse.stack body = None ∧
    (∀ k v, default ∅ meta !! k = Some v →
            ErrorResponse.meta body !! k = Some v) ∧
    (default ∅ meta !! "timestamp" = None →
     ErrorResponse.meta body !! "timestamp" = Some (JStr now)).
Proof.
  eexists. split; [apply trace_status_json|].
  destruct errors as [e|]; cbn [ErrorResponse.success ErrorResponse.statusCode
    ErrorResponse.message ErrorResponse.errors ErrorResponse.code
    ErrorResponse.stack ErrorResponse.meta];
    (repeat (split; [reflexivity|])); split.
  - intros k v. apply (lookup_generateMeta_supplied now (Some (default ∅ meta))).
  - apply (lookup_generateMeta_timestamp now (Some (default ∅ meta))).
  - intros k v. apply (lookup_generateMeta_supplied now (Some (default ∅ meta))).
  - apply (lookup_generateMeta_timestamp now (Some (default ∅ meta))).
Qed.

(** The test suite's case: [null] errors and a supplied [requestId]. *)
Lemma error_envelope_witness :
  ∃ body,
    error "2024-05-01T10:00:00.000Z" [] (Some "Error") (Some 500) None
      (Some {["requestId" := JStr "abc-123"]})
      = [CallStatus 500; CallJson body] ∧
    ErrorResponse.errors body = None ∧
    ErrorResponse.meta body !! "requestId" = Some (JStr "abc-123") ∧
    ErrorResponse.meta body !! "timestamp"
      = Some (JStr "2024-05-01T10:00:00.000Z").
Proof.
  destruct (error_envelope "2024-05-01T10:00:00.000Z" [] (Some "Error")
              (Some 500) None (Some {["requestId" := JStr "abc-123"]}))
    as (body & Hsent & _ & _ & _ & Herrors & _ & _ & Hsupplied & Hstamp).
  exists body. split; [assumption|]. split; [assumption|]. split.
  - apply Hsupplied. vm_compute. reflexivity.
  - apply Hstamp. vm_compute. reflexivity.
Defined.

(** [success] sends the data unchanged with [success = true] whatever the
    status code is, sets that same status on the sink (200 when omitted),
    and passes every supplied [meta] entry on, adding the generated
    timestamp unless the caller supplied one. *)
Theorem success_envelope {T} (now : string)
    (res : list (SinkCall (SuccessResponse.t T))) (data : T)
    (message : option string) (statusCode : option Z) (meta : option Meta) :
  ∃ body,
    success now res data message statusCode meta
      = res ++ [CallStatus (default 200 statusCode); CallJson body] ∧
    SuccessResponse.success T body = true ∧
    SuccessResponse.statusCode T body = default 200 statusCode ∧
    SuccessResponse.message T body = default "Success" message ∧
    SuccessResponse.data T body = data ∧
    (∀ k v, default ∅ meta !! k = Some v →
            SuccessResponse.meta T body !! k = Some v) ∧
    (default ∅ meta !! "timestamp" = None →
     SuccessResponse.meta T body !! "timestamp" = Some (JStr now)).
Proof.
  eexists. split; [apply trace_status_json|].
  cbn [SuccessResponse.success SuccessResponse.statusCode
       SuccessResponse.message SuccessResponse.data SuccessResponse.meta].
  repeat (split; [reflexivity|]). split.
  - intros k v. apply (lookup_generateMeta_supplied now (Some (default ∅ meta))).
  - apply (lookup_generateMeta_timestamp now (Some (default ∅ meta))).
Qed.

(** A success envelope sent with status 500. *)
Lemma success_envelope_witness :
  ∃ body,
    success "2024-05-01T10:00:00.000Z" [] 1%Z (Some "Success") (Some 500)
      (Some {["version" := JStr "v1"]})
      = [CallStatus 500; CallJson body] ∧
    SuccessResponse.success Z body = true ∧
    SuccessResponse.meta Z body !! "version" = Some (JStr "v1") ∧
    SuccessResponse.meta Z body !! "timestamp"
      = Some (JStr "2024-05-01T10:00:00.000Z").
Proof.
  destruct (success_envelope "2024-05-01T10:00:00.000Z" [] 1%Z
              (Some "Success") (Some 500) (Some {["version" := JStr "v1"]}))
    as (body & Hsent & Hsuccess & _ & _ & _ & Hsupplied & Hstamp).
  exists body. split; [assumption|]. split; [assumption|]. split.
  - apply Hsupplied. vm_compute. reflexivity.
  - apply Hstamp. vm_compute. reflexivity.
Defined.

(** ** Metadata *)

(** Metadata that already went through [generateMeta] is not stamped
    again: handing a generated record back as extra metadata returns it
    unchanged, with its first timestamp. *)
Theorem generateMeta_restamp (now1 now2 : string) (extra : option Meta) :
  generateMeta now2 (Some (generateMeta now1 extra)) = generateMeta now1 extra.
Proof.
  apply map_eq. intros k. rewrite (lookup_generateMeta now2). simpl.
  destruct (generateMeta now1 extra !! k) as [v|] eqn:Hk; [reflexivity|].
  case_decide as Ht; [|reflexivity]. subst k.
  rewrite lookup_generateMeta in Hk.
  destruct (default ∅ extra !! "timestamp"); [discriminate|].
  by rewrite decide_True in Hk.
Qed.

(** ** Pagination outside the happy path *)

(** For integers below [2 ^ 53] with a positive [limit], [totalPages] is
    [(total + limit - 1) / limit] in integer division: [total / limit]
    when [limit] divides [total], and one more otherwise. *)
Theorem paginated_totalPages_formula {T} (now : string)
    (res : list (SinkCall (PaginatedResponse.t T))) (data : list T)
    (page : number) (limit total : Z) (message : option string) :
  0 < limit < 2 ^ 53 → 0 ≤ total < 2 ^ 53 →
  ∃ body,
    paginated now res data
      (mkPaginationInput page (of_Z limit) (of_Z total)) message
      = res ++ [CallStatus 200; CallJson body] ∧
    PaginationOutput.totalPages (PaginatedResponse.pagination body)
      = of_Z ((total + limit - 1) `div` limit) ∧
    (total `mod` limit = 0 →
     PaginationOutput.totalPages (PaginatedResponse.pagination body)
       = of_Z (total `div` limit)) ∧
    (total `mod` limit ≠ 0 →
     PaginationOutput.totalPages (PaginatedResponse.pagination body)
       = of_Z (total `div` limit + 1)).
Proof.
  intros Hlimit Htotal.
  destruct (totalPages_safe total limit Htotal Hlimit) as (n & Hceil & Hn).
  eexists. split; [apply trace_status_json|].
  cbn -[number_lt number_gt of_Z Math_ceil number_div].
  rewrite Hceil.
  pose proof (Z.div_mod total limit ltac:(lia)) as Hdiv.
  pose proof (Z.mod_pos_bound total limit ltac:(lia)) as Hmod.
  split; [|split].
  - f_equal. apply (Z.div_unique _ _ n (total + limit - 1 - n * limit)); lia.
  - intros H0. f_equal. nia.
  - intros H0. f_equal. nia.
Qed.

(** The test suite's case: 95 items, ten per page. *)
Lemma paginated_totalPages_formula_witness :
  ∃ body,
    paginated (T := nat) "2024-05-01T10:00:00.000Z" [] []
      (mkPaginationInput (of_Z 2) (of_Z 10) (of_Z 95)) None
      = [CallStatus 200; CallJson body] ∧
    PaginationOutput.totalPages (PaginatedResponse.pagination body) = of_Z 10.
Proof.
  destruct (paginated_totalPages_formula (T := nat)
              "2024-05-01T10:00:00.000Z" [] [] (of_Z 2) 10 95 None)
    as (body & Hsent & Hformula & _); [lia | lia |].
  exists body. split; [assumption|]. exact Hformula.
Defined.

Lemma number_div_negative_limit (a b : Z) :
  0 < a → 0 < b →
  number_div (of_Z a) (of_Z (- b)) = number_neg (binary64_quotient a b).
Proof.
  intros Ha Hb. destruct a as [|a|a], b as [|b|b]; try lia.
  unfold number_div, of_Z, inject_Z.
  cbn -[binary64_quotient Z.mul number_neg].
  by rewrite Z.mul_1_r, Z.mul_1_l.
Qed.

(** The page count for a negative limit and integers below [2 ^ 53]. *)
Lemma totalPages_negative_limit (total limit : Z) :
  0 ≤ total < 2 ^ 53 → - 2 ^ 53 < limit < 0 →
  Math_ceil (number_div (of_Z total) (of_Z limit)) =
  if (total <? - limit) then NegZero else of_Z (- (total `div` (- limit))).
Proof.
  intros [Htotal Htotal53] Hlimit.
  set (b := - limit). assert (Hb : 0 < b < 2 ^ 53) by lia.
  replace limit with (- b) by lia.
  destruct (Z.eq_dec total 0) as [->|Hpos].
  - destruct (Z.ltb_spec 0 b); [|lia].
    destruct b as [|p|p]; try lia. reflexivity.
  - rewrite number_div_negative_limit by lia.
    destruct (binary64_quotient_safe total b ltac:(lia) Hb)
      as (m & E & HE & -> & Horder).
    assert (HpE : 0 < 2 ^ E) by (apply Z.pow_pos_nonneg; lia).
    assert (Hm : 0 < m) by (destruct (Horder 0) as (H0 & _); lia).
    unfold number_neg. cbn [Qnum].
    destruct (Z.eqb_spec m 0); [lia|].
    unfold Math_ceil, Qle_bool, inject_Z, Qceiling, Qfloor, Qopp.
    cbn [Qnum Qden]. rewrite Z2Pos.id by assumption.
    rewrite Z.opp_involutive.
    destruct (Z.ltb_spec (- m) 0); [|lia].
    destruct (Horder 1) as (Hgt1 & Hlt1 & Heq1).
    destruct (Z.leb_spec (- m * 1) (-1 * 2 ^ E)) as [Hge|Hlt];
      destruct (Z.ltb_spec total b) as [Hsmall|Hbig]; cbn [negb andb].
    + specialize (Hlt1 ltac:(lia)). lia.
    + f_equal. f_equal.
      pose proof (Z.div_mod total b ltac:(lia)) as Hdiv.
      pose proof (Z.mod_pos_bound total b ltac:(lia)) as Hmod.
      set (f := total `div` b) in *.
      destruct (Horder f) as (Hf1 & _ & Hf2).
      destruct (Horder (f + 1)) as (_ & Hf3 & _).
      assert (f * 2 ^ E ≤ m).
      { destruct (Z.eq_dec (total `mod` b) 0) as [H0|H0].
        - rewrite (Hf2 ltac:(lia)). lia.
        - assert (f * 2 ^ E < m) by (apply Hf1; lia). lia. }
      assert (m < (f + 1) * 2 ^ E) by (apply Hf3; lia).
      symmetry. apply (Z.div_unique _ _ f (m - f * 2 ^ E)); lia.
    + reflexivity.
    + destruct (Z.eq_dec total b) as [Heq|Hne].
      * specialize (Heq1 ltac:(lia)). lia.
      * specialize (Hgt1 ltac:(lia)). lia.
Qed.

(** A negative [limit] is not rejected: for integers below [2 ^ 53] in
    size and a non-negative [total] it yields [-(total / -limit)] pages,
    which is the negative zero when [total < -limit] and a negative integer
    otherwise, so [hasNextPage] is false for every non-negative page. *)
Theorem paginated_negative_limit {T} (now : string)
    (res : list (SinkCall (PaginatedResponse.t T))) (data : list T)
    (page limit total : Z) (message : option string) :
  - 2 ^ 53 < limit < 0 → 0 ≤ total < 2 ^ 53 → 0 ≤ page →
  ∃ body,
    paginated now res data
      (mkPaginationInput (of_Z page) (of_Z limit) (of_Z total)) message
      = res ++ [CallStatus 200; CallJson body] ∧
    PaginationOutput.totalPages (PaginatedResponse.pagination body) =
      (if (total <? - limit) then NegZero
       else of_Z (- (total `div` (- limit)))) ∧
    0 ≤ total `div` (- limit) ∧
    PaginationOutput.hasNextPage (PaginatedResponse.pagination body) = false.
Proof.
  intros Hlimit Htotal Hpage.
  assert (Hq : 0 ≤ total `div` (- limit)) by (apply Z.div_pos; lia).
  eexists. split; [apply trace_status_json|].
  cbn -[number_lt number_gt of_Z Math_ceil number_div].
  rewrite totalPages_negative_limit by assumption.
  split; [reflexivity|]. split; [lia|].
  destruct (Z.ltb_spec total (- limit)).
  - change (number_lt (of_Z page) NegZero)
      with (number_lt (of_Z page) (of_Z 0)).
    rewrite number_lt_of_Z. apply bool_decide_eq_false. lia.
  - rewrite number_lt_of_Z. apply bool_decide_eq_false. lia.
Qed.

(** Fifty items, limit -10: minus five pages. *)
Lemma paginated_negative_limit_witness :
  ∃ body,
    paginated (T := nat) "2024-05-01T10:00:00.000Z" [] []
      (mkPaginationInput (of_Z 1) (of_Z (-10)) (of_Z 50)) None
      = [CallStatus 200; CallJson body] ∧
    PaginationOutput.totalPages (PaginatedResponse.pagination body)
      = of_Z (-5) ∧
    PaginationOutput.hasNextPage (PaginatedResponse.pagination body) = false.
Proof.
  destruct (paginated_negative_limit (T := nat) "2024-05-01T10:00:00.000Z"
              [] [] 1 (-10) 50 None)
    as (body & Hsent & Hpages & _ & Hnext); [lia | lia | lia |].
  exists body. split; [assumption|]. split; [exact Hpages | exact Hnext].
Defined.

(** ** Sinks, constructors and builders together *)

(** On every sink the handler makes one [status] call followed by one
    [json] call, with arguments that do not depend on the sink.  On the
    mock sink of the test suite, [getResponseData] therefore shows that
    status and that body whatever the mock held before. *)
Theorem handler_any_sink (NODE_ENV : option string) (now : string)
    (err : Thrown) (req : ApiRequest) :
  ∃ code body,
    (∀ (R : Type) (sink : ApiResponse R ErrorResponse.t) (res : R),
       globalErrorHandler NODE_ENV now err req res
       = json body (status code res)) ∧
    globalErrorHandler NODE_ENV now err req [] =
      [CallStatus code; CallJson body] ∧
    ∀ res : MockResponse.t ErrorResponse.t,
      getResponseData (globalErrorHandler NODE_ENV now err req res)
      = (code, Some body).
Proof.
  assert (Hany : ∃ code body,
            ∀ (R : Type) (sink : ApiResponse R ErrorResponse.t) (res : R),
              globalErrorHandler NODE_ENV now err req res
              = json body (status code res)).
  { destruct err as [err|err]; do 2 eexists; intros R sink res; reflexivity. }
  destruct Hany as (code & body & Hany).
  exists code, body. split; [exact Hany|].
  split; [|intros res]; rewrite Hany; reflexivity.
Qed.

(** Each named constructor fixes the status of the response: handled in
    any deployment mode, [badRequest], [unauthorized], [forbidden],
    [notFound], [conflict] and [internal] are answered with 400, 401, 403,
    404, 409 and 500, with the given code and message or the constructor's
    defaults when they are omitted. *)
Theorem named_constructors_respond (NODE_ENV : option string)
    (now trace : string) (req : ApiRequest)
    (message code : option string) (text : string) :
  respondsWith
    (globalErrorHandler NODE_ENV now
       (IsAppError (AppError.badRequest trace text code)) req [])
    400 (default "BAD_REQUEST" code) text ∧
  respondsWith
    (globalErrorHandler NODE_ENV now
       (IsAppError (AppError.unauthorized trace message code)) req [])
    401 (default "UNAUTHORIZED" code) (default "Unauthorized" message) ∧
  respondsWith
    (globalErrorHandler NODE_ENV now
       (IsAppError (AppError.forbidden trace message code)) req [])
    403 (default "FORBIDDEN" code) (default "Forbidden" message) ∧
  respondsWith
    (globalErrorHandler NODE_ENV now
       (IsAppError (AppError.notFound trace message code)) req [])
    404 (default "NOT_FOUND" code) (default "Resource not found" message) ∧
  respondsWith
    (globalErrorHandler NODE_ENV now
       (IsAppError (AppError.conflict trace text code)) req [])
    409 (default "CONFLICT" code) text ∧
  respondsWith
    (globalErrorHandler NODE_ENV now
       (IsAppError (AppError.internal trace message code)) req [])
    500 (default "INTERNAL_ERROR" code)
    (default "Internal server error" message).
Proof.
  rewrite !handler_sent.
  repeat split; eexists; (split; [reflexivity|]); repeat split.
Qed.

(** [validationError(res, errors)] and
    [error(res, 'Validation failed', 422, errors)] set the same status and
    send envelopes with the same [success], [statusCode], [message],
    [errors] and [meta]. *)
Theorem validationError_as_error (now : string)
    (errors : list ValidationErrorItem) :
  ∃ vbody ebody,
    validationError now [] errors = [CallStatus 422; CallJson vbody] ∧
    error now [] (Some "Validation failed") (Some 422)
          (Some (ErrorItems errors)) None
      = [CallStatus 422; CallJson ebody] ∧
    ErrorResponse.success ebody = ValidationErrorResponse.success vbody ∧
    ErrorResponse.statusCode ebody = ValidationErrorResponse.statusCode vbody ∧
    ErrorResponse.message ebody = ValidationErrorResponse.message vbody ∧
    ErrorResponse.errors ebody
      = Some (ErrorItems (ValidationErrorResponse.errors vbody)) ∧
    ErrorResponse.meta ebody = ValidationErrorResponse.meta vbody.
Proof.
  do 2 eexists. split; [reflexivity|]. split; [reflexivity|].
  repeat split.
Qed.
